(** * Tyranno command-line interface ([src/cicd/cli.py])

    A shallow embedding of the command-line module: the logging-level
    selector [set_cli_state], the [Messenger] presentation object, the
    option bundle [_Opts] and the three commands of [CliCommands]
    ([new], [sync], [clean]).

    The module is effectful: it reconfigures the process-wide logger,
    writes to the console, reads the working directory and calls two
    collaborators that live in other modules (the context factory and
    the cleaner).  Effects are threaded through a small state-and-exception
    monad; the collaborators are section variables acting on the world. *)

From Stdlib Require Import ZArith List String Ascii Bool Lia.
From Stdlib Require Import DecimalString DecimalNat.
Import ListNotations.

Local Open Scope list_scope.
Local Open Scope string_scope.
Local Open Scope Z_scope.

(* ===================================================================== *)
(** ** Python values and exceptions *)
(* ===================================================================== *)

Module Py.

(** The exceptions that can travel through this module, by class (the
    message texts are not modelled).  [typer.Exit] is an exception carrying
    the process exit code (0 when constructed without arguments);
    [OtherError] stands for whatever a collaborator raises. *)
Inductive exn : Type :=
  | IndexError
  | TypeError
  | ValueError
  | typer_Exit (code : Z)
  | OtherError (name : string).

(** Result of running a statement: normal completion or a raised
    exception. *)
Inductive outcome (A : Type) : Type :=
  | Ret (a : A)
  | Raise (e : exn).
Arguments Ret {A} a.
Arguments Raise {A} e.

(** An argument of integer type.  [bool] is a subclass of [int] in Python,
    so [False] and [True] can stand where a count is expected and take part
    in arithmetic as 0 and 1. *)
Inductive pyint : Type :=
  | PyBool (b : bool)
  | PyInt (z : Z).

Definition int_of (v : pyint) : Z :=
    match v with
    | PyBool true => 1
    | PyBool false => 0
    | PyInt z => z
    end.


(** [l[i]]: indices [0 .. len-1] count from the front, [-len .. -1] from
    the back, anything else is an [IndexError]. *)
Definition getitem {A} (l : list A) (i : Z) : outcome A :=
    let n := Z.of_nat (List.length l) in
    let j := if i <? 0 then i + n else i in
    if (0 <=? j) && (j <? n) then
      match nth_error l (Z.to_nat j) with
      | Some x => Ret x
      | None => Raise IndexError
      end
    else Raise IndexError.

(** [str(n)] for a non-negative integer such as a [len(...)]. *)
Definition str_of_nat (n : nat) : string :=
    NilZero.string_of_uint (Nat.to_uint n).

(** [f"{v}"] for a value that is a string or [None]. *)
Definition format_opt (v : option string) : string :=
    match v with
    | Some s => s
    | None => "None"
    end.

(** [v is None]. *)
Definition is_None {A} (v : option A) : bool :=
    match v with
    | Some _ => false
    | None => true
    end.

(** A parameter of a call: left out by the caller, or given. *)
Inductive arg (A : Type) : Type :=
  | Omitted
  | Given (a : A).
Arguments Omitted {A}.
Arguments Given {A} a.

(** Binding of a parameter that declares a default value. *)
Definition or_default {A} (a : arg A) (d : A) : A :=
    match a with
    | Omitted => d
    | Given x => x
    end.

End Py.
Import Py.

(** File-system paths, as their string form. *)
Definition Path : Type := string.

(* ===================================================================== *)
(** ** The world the module acts on *)
(* ===================================================================== *)

Inductive Stream : Type := Stdout | Stderr.

(** A log handler: where the records go and the least severity let
    through. *)
Record Handler : Type := mkHandler {
  h_sink : Stream;
  h_level : string
}.

(** What any code of the process can read or change: the working
    directory; the process-wide logger, with its handlers and the names of
    the severity levels registered with it; standard output (the characters
    written so far, and whether the stream is a terminal); standard error;
    and the file system. *)
Record World (FS : Type) : Type := mkWorld {
  cwd : Path;
  handlers : list Handler;
  log_levels : list string;
  stdout : string;
  stdout_isatty : bool;
  stderr : string;
  fs : FS
}.
Arguments mkWorld {FS} _ _ _ _ _ _ _.
Arguments cwd {FS} _.
Arguments handlers {FS} _.
Arguments log_levels {FS} _.
Arguments stdout {FS} _.
Arguments stdout_isatty {FS} _.
Arguments stderr {FS} _.
Arguments fs {FS} _.

(** The world with other handlers. *)
Definition with_handlers {FS} (w : World FS) (hs : list Handler) : World FS :=
  mkWorld (cwd w) hs (log_levels w) (stdout w) (stdout_isatty w) (stderr w) (fs w).

(** The world with more characters on standard output. *)
Definition with_output {FS} (w : World FS) (text : string) : World FS :=
  mkWorld (cwd w) (handlers w) (log_levels w) (stdout w ++ text)
          (stdout_isatty w) (stderr w) (fs w).

(** A call to a collaborator, with the arguments it was given. *)
Inductive Call (RunContext GlobalVars : Type) : Type :=
| ContextFactoryCall (cwd : Path) (dry_run : bool) (global_vars : GlobalVars)
| CleanerRunCall (context : RunContext).
Arguments ContextFactoryCall {RunContext GlobalVars} _ _ _.
Arguments CleanerRunCall {RunContext GlobalVars} _.

(** The state of a run: the world, and the record of the collaborator
    calls made so far (kept by the model, out of the collaborators'
    reach). *)
Record State (FS RunContext GlobalVars : Type) : Type := mkState {
  world : World FS;
  calls : list (Call RunContext GlobalVars)
}.
Arguments mkState {FS RunContext GlobalVars} _ _.
Arguments world {FS RunContext GlobalVars} _.
Arguments calls {FS RunContext GlobalVars} _.

(** Statements: state in, outcome and state out. *)
Definition M (FS RunContext GlobalVars : Type) (A : Type) : Type :=
  State FS RunContext GlobalVars -> outcome A * State FS RunContext GlobalVars.

Section Monad.
Context {FS RunContext GlobalVars : Type}.
Let M := M FS RunContext GlobalVars.

Definition ret {A} (a : A) : M A := fun s => (Ret a, s).

Definition bind {A B} (c : M A) (k : A -> M B) : M B :=
    fun s =>
      match c s with
      | (Ret a, s') => k a s'
      | (Raise e, s') => (Raise e, s')
      end.

Definition raise {A} (e : exn) : M A := fun s => (Raise e, s).

(** A pure computation that may raise. *)
Definition lift {A} (r : outcome A) : M A := fun s => (r, s).

Definition get_world : M (World FS) := fun s => (Ret (world s), s).

Definition modify_world (f : World FS -> World FS) : M unit :=
    fun s => (Ret tt, mkState (f (world s)) (calls s)).

(** Running a collaborator: it acts on the world; the call is
    recorded. *)
Definition call {A} (c : Call RunContext GlobalVars)
      (f : World FS -> outcome A * World FS) : M A :=
    fun s =>
      let (r, w') := f (world s) in
      (r, mkState w' (calls s ++ [c])%list).
End Monad.

Declare Scope py_scope.
Delimit Scope py_scope with py.
Notation "x <- c ;; k" := (bind c (fun x => k))
  (at level 61, c at next level, right associativity) : py_scope.
Notation "c ;; k" := (bind c (fun _ => k))
  (at level 61, right associativity) : py_scope.
Local Open Scope py_scope.

(* ===================================================================== *)
(** ** Library primitives the module calls *)
(* ===================================================================== *)

Definition LF : string := String (ascii_of_nat 10) EmptyString.
Definition ESC : string := String (ascii_of_nat 27) EmptyString.

(** [os.getcwd()] and [Path(...)]. *)
Module os.
Section Ops.
Context {FS RunContext GlobalVars : Type}.
Definition getcwd : M FS RunContext GlobalVars string :=
  w <- get_world ;; ret (cwd w).
End Ops.
End os.

(** The two operations of the process-wide [loguru] logger the module uses.
    [remove()] without a handler id drops every handler.
    [add(sink, level=name)] looks the name up among the levels registered
    with the logger and raises [ValueError] when there is none of that name;
    otherwise it installs one more handler.  A fresh logger knows the seven
    levels of [builtin_levels]; [logger.level(name, no=...)], which this
    module never calls, registers more. *)
Module logger.
Definition builtin_levels : list string :=
  ["TRACE"; "DEBUG"; "INFO"; "SUCCESS"; "WARNING"; "ERROR"; "CRITICAL"].

Definition level_known {FS} (name : string) (w : World FS) : bool :=
  existsb (String.eqb name) (log_levels w).

Section Ops.
Context {FS RunContext GlobalVars : Type}.

Definition remove : M FS RunContext GlobalVars unit :=
  modify_world (fun w => with_handlers w []).

Definition add (sink : Stream) (level : string) : M FS RunContext GlobalVars unit :=
  w <- get_world ;;
  if level_known level w
  then modify_world (fun w => with_handlers w (handlers w ++ [mkHandler sink level])%list)
  else raise ValueError.
End Ops.
End logger.

(** [typer.colors], [typer.style] and [typer.echo] (re-exported from
    [click]) on a POSIX system.  [style] wraps the text in ANSI escape
    sequences: the foreground colour code when [fg] is set, then bold on or
    off, the text, and the reset-all sequence; an unknown colour name is a
    [TypeError].  [echo] appends a line feed to the message, removes the
    ANSI escape sequences when standard output is not a terminal, and
    writes the result to standard output. *)
Module typer.
Module colors.
Definition GREEN : string := "green".
Definition RED : string := "red".
End colors.

Definition _ansi_colors : list (string * nat) :=
  [ ("black", 30); ("red", 31); ("green", 32); ("yellow", 33);
    ("blue", 34); ("magenta", 35); ("cyan", 36); ("white", 37);
    ("reset", 39); ("bright_black", 90); ("bright_red", 91);
    ("bright_green", 92); ("bright_yellow", 93); ("bright_blue", 94);
    ("bright_magenta", 95); ("bright_cyan", 96); ("bright_white", 97) ]%nat.

Fixpoint lookup (k : string) (t : list (string * nat)) : option nat :=
  match t with
  | [] => None
  | (k', v) :: t' => if String.eqb k k' then Some v else lookup k t'
  end.

Definition sgr (code : string) : string := ESC ++ "[" ++ code ++ "m".

Definition _ansi_reset_all : string := sgr "0".

Definition style (text : string) (fg : string) (bold : bool) : outcome string :=
  let rest := sgr (if bold then "1" else "22") ++ text ++ _ansi_reset_all in
  if String.eqb fg "" then Ret rest
  else match lookup fg _ansi_colors with
       | Some c => Ret (sgr (str_of_nat c) ++ rest)
       | None => Raise TypeError
       end.

(** The character classes of the pattern [\033\[[;?0-9]*[a-zA-Z]] that
    [strip_ansi] removes. *)
Definition is_esc (c : ascii) : bool := Ascii.eqb c (ascii_of_nat 27).

Definition is_bracket (c : ascii) : bool := Ascii.eqb c (ascii_of_nat 91).

Definition is_param (c : ascii) : bool :=
  let n := nat_of_ascii c in
  ((48 <=? n) && (n <=? 57) || (n =? 59) || (n =? 63))%nat.

Definition is_letter (c : ascii) : bool :=
  let n := nat_of_ascii c in
  ((65 <=? n) && (n <=? 90) || (97 <=? n) && (n <=? 122))%nat.

(** Where a left-to-right scan for the pattern stands: outside a
    candidate, just after an escape character, or after the bracket and
    some parameter characters. *)
Inductive scan : Type := Plain | AfterEsc | InParams.

(** The scan.  [pending] holds the characters of the candidate read so
    far: they are dropped when a letter completes the pattern and written
    out when the candidate breaks off (no other candidate can start inside
    them, since only their first character is an escape). *)
Fixpoint strip_from (st : scan) (pending : string) (s : string) : string :=
  match s with
  | EmptyString =>
      match st with
      | Plain => EmptyString
      | _ => pending
      end
  | String c s' =>
      match st with
      | Plain =>
          if is_esc c then strip_from AfterEsc (String c EmptyString) s'
          else String c (strip_from Plain EmptyString s')
      | AfterEsc =>
          if is_bracket c then strip_from InParams (pending ++ String c EmptyString) s'
          else if is_esc c then pending ++ strip_from AfterEsc (String c EmptyString) s'
          else pending ++ String c (strip_from Plain EmptyString s')
      | InParams =>
          if is_param c then strip_from InParams (pending ++ String c EmptyString) s'
          else if is_letter c then strip_from Plain EmptyString s'
          else if is_esc c then pending ++ strip_from AfterEsc (String c EmptyString) s'
          else pending ++ String c (strip_from Plain EmptyString s')
      end
  end.

Definition strip_ansi (s : string) : string := strip_from Plain EmptyString s.

(** What reaches the stream of a text handed to it. *)
Definition rendered (isatty : bool) (out : string) : string :=
  if isatty then out else strip_ansi out.

Section Ops.
Context {FS RunContext GlobalVars : Type}.

Definition echo (message : string) : M FS RunContext GlobalVars unit :=
  modify_world (fun w => with_output w (rendered (stdout_isatty w) (message ++ LF))).
End Ops.
End typer.

(* ===================================================================== *)
(** ** [Messenger] *)
(* ===================================================================== *)

Record Messenger : Type := mkMessenger {
  success_color : string;
  error_color : string
}.

Module Messenger.
Section Ops.
Context {FS RunContext GlobalVars : Type}.
Let M := M FS RunContext GlobalVars.

Definition success (self : Messenger) (msg : string) : M unit :=
      styled <- lift (typer.style msg (success_color self) true) ;;
      typer.echo styled.

Definition info (self : Messenger) (msg : string) : M unit :=
      typer.echo msg.

Definition failure (self : Messenger) (msg : string) : M unit :=
      styled <- lift (typer.style msg (error_color self) true) ;;
      typer.echo styled.

(** [__about__.name] and [__about__.version] come from another module. *)
Definition show_project_info (about_name about_version : string)
        (self : Messenger) : M unit :=
      info self (about_name ++ " v" ++ about_version).
End Ops.
End Messenger.

(** [messenger = Messenger()]: the instance with the declared field
    defaults. *)
Definition messenger : Messenger :=
  mkMessenger typer.colors.GREEN typer.colors.RED.

(* ===================================================================== *)
(** ** [set_cli_state] *)
(* ===================================================================== *)

Definition levels : list string :=
  ["TRACE"; "DEBUG"; "INFO"; "SUCCESS"; "WARNING"; "ERROR"; "FATAL"].

(** The innermost operand of the index expression. *)
Definition raw_index (verbose quiet : Z) : Z := 3 + quiet - verbose.

(** The index expression of the source, as written:
    [max(6, min(0, 3 + quiet - verbose))]. *)
Definition level_index (verbose quiet : Z) : Z :=
  Z.max 6 (Z.min 0 (raw_index verbose quiet)).

Section SetCliState.
Context {FS RunContext GlobalVars : Type}.

Definition set_cli_state (verbose quiet : Z) : M FS RunContext GlobalVars unit :=
  level <- lift (getitem levels (level_index verbose quiet)) ;;
  logger.remove ;;
  logger.add Stderr level.
End SetCliState.

(* ===================================================================== *)
(** ** The option bundle and the commands *)
(* ===================================================================== *)

(** The values the class attributes of [_Opts] are bound to. *)
Module _Opts.
Definition dry_run : bool := false.
Definition verbose : pyint := PyInt 0.
Definition quiet : pyint := PyInt 0.
End _Opts.

(** What is evaluated once, when the module is imported: the default of
    [path] in the header of [new] is the value of [Path.cwd()] at that
    moment. *)
Record Imported : Type := mkImported {
  new_path_default : Path
}.

Definition import_module {FS} (w : World FS) : Imported :=
  mkImported (cwd w).

(** The parameters of [new] once a call has bound them.  [path] and [name]
    are compared with [None] by the body, so they are values that may be
    [None]. *)
Record NewFrame : Type := mkNewFrame {
  new_path : option Path;
  new_name : option string;
  new_license_id : string;
  new_dry_run : bool;
  new_verbose : pyint;
  new_quiet : pyint
}.

(** The parameters [sync] and [clean] declare, once bound. *)
Record OptsFrame : Type := mkOptsFrame {
  opt_dry_run : bool;
  opt_verbose : pyint;
  opt_quiet : pyint
}.

(** A value that reaches a parameter from the command line has the declared
    type: it is never [None]. *)
Definition supplied {A} (a : arg A) : arg (option A) :=
  match a with
  | Omitted => Omitted
  | Given x => Given (Some x)
  end.

Module CliCommands.
Section Commands.
Context {FS RunContext GlobalVars : Type}.
Let M := M FS RunContext GlobalVars.

(** [_GLOBAL_VARS], built once at import by the global-variables factory. *)
Variable _GLOBAL_VARS : GlobalVars.

(** [DefaultContextFactory()(cwd, dry_run=..., global_vars=...)]. *)
Variable DefaultContextFactory :
  Path -> bool -> GlobalVars -> World FS -> outcome RunContext * World FS.

(** [list(Cleaner(context).run())]: the cleaner is built, run, and the
    paths it yields are drained into a list. *)
Variable Cleaner_run :
  RunContext -> World FS -> outcome (list Path) * World FS.

Variable this : Imported.

Definition make_context (dry_run : bool) : M RunContext :=
  here <- os.getcwd ;;
  call (ContextFactoryCall here dry_run _GLOBAL_VARS)
       (DefaultContextFactory here dry_run _GLOBAL_VARS).

(** The header of [new]: each parameter left out takes its declared
    default. *)
Definition new_bind
    (path : arg (option Path))
    (name : arg (option string))
    (license_id : arg string)
    (dry_run : arg bool)
    (verbose quiet : arg pyint) : NewFrame :=
  mkNewFrame
    (or_default path (Some (new_path_default this)))
    (or_default name (Some "my-project"))
    (or_default license_id "Apache-2.0")
    (or_default dry_run false)
    (or_default verbose (PyBool false))
    (or_default quiet (PyBool false)).

Definition new_body (f : NewFrame) : M unit :=
  if is_None (new_path f) && is_None (new_name f) then raise (typer_Exit 0)
  else
    set_cli_state (int_of (new_verbose f)) (int_of (new_quiet f)) ;;
    context <- make_context (new_dry_run f) ;;
    Messenger.info messenger
      ("Done! Created a new repository under " ++ format_opt (new_name f)) ;;
    Messenger.success messenger
      "See https://dmyersturnbull.github.io/tyranno/guide.html".

Definition new
    (path : arg (option Path))
    (name : arg (option string))
    (license_id : arg string)
    (dry_run : arg bool)
    (verbose quiet : arg pyint) : M unit :=
  new_body (new_bind path name license_id dry_run verbose quiet).

(** The header shared by [sync] and [clean]. *)
Definition opts_bind (dry_run : arg bool) (verbose quiet : arg pyint) : OptsFrame :=
  mkOptsFrame
    (or_default dry_run false)
    (or_default verbose (PyBool false))
    (or_default quiet (PyBool false)).

Definition sync_body (f : OptsFrame) : M unit :=
  set_cli_state (int_of (opt_verbose f)) (int_of (opt_quiet f)) ;;
  context <- make_context (opt_dry_run f) ;;
  Messenger.info messenger "Syncing metadata...".

Definition sync (dry_run : arg bool) (verbose quiet : arg pyint) : M unit :=
  sync_body (opts_bind dry_run verbose quiet).

Definition clean_body (f : OptsFrame) : M unit :=
  set_cli_state (int_of (opt_verbose f)) (int_of (opt_quiet f)) ;;
  context <- make_context (opt_dry_run f) ;;
  trashed <- call (CleanerRunCall context) (Cleaner_run context) ;;
  Messenger.info messenger
    ("Trashed " ++ str_of_nat (List.length trashed) ++ " paths.").

Definition clean (dry_run : arg bool) (verbose quiet : arg pyint) : M unit :=
  clean_body (opts_bind dry_run verbose quiet).
End Commands.
End CliCommands.

(* ===================================================================== *)
(** ** Observing the console *)
(* ===================================================================== *)

(** Number of line feeds in a text: the number of lines it ends. *)
Fixpoint count_lf (s : string) : nat :=
  match s with
  | EmptyString => 0%nat
  | String c s' =>
      if Ascii.eqb c (ascii_of_nat 10) then S (count_lf s') else count_lf s'
  end.

(** The lines of a text (the pieces between line feeds). *)
Fixpoint lines_of_aux (cur : string) (s : string) : list string :=
  match s with
  | EmptyString => if String.eqb cur "" then [] else [cur]
  | String c s' =>
      if Ascii.eqb c (ascii_of_nat 10) then cur :: lines_of_aux "" s'
      else lines_of_aux (cur ++ String c EmptyString) s'
  end.

Definition lines_of (s : string) : list string := lines_of_aux "" s.

(** [contains needle hay]: [needle in hay]. *)
Fixpoint contains (needle hay : string) : bool :=
  String.prefix needle hay ||
  match hay with
  | EmptyString => false
  | String _ hay' => contains needle hay'
  end.

Definition strip_prefix (p s : string) : option string :=
  if String.prefix p s
  then Some (String.substring (String.length p) (String.length s - String.length p) s)
  else None.

Definition strip_suffix (p s : string) : option string :=
  let n := (String.length s - String.length p)%nat in
  if (String.length p <=? String.length s)%nat
     && String.eqb (String.substring n (String.length p) s) p
  then Some (String.substring 0 n s)
  else None.

(** The text of a line that is bold with foreground [fg]: the [msg] with
    [typer.style msg fg true = line], when there is one. *)
Definition styled_text (fg : string) (line : string) : option string :=
  match typer.style "" fg true with
  | Ret frame =>
      match strip_suffix typer._ansi_reset_all frame with
      | Some opening =>
          match strip_prefix opening line with
          | Some r => strip_suffix typer._ansi_reset_all r
          | None => None
          end
      | None => None
      end
  | Raise _ => None
  end.

(** Some line of [out] carries the success styling of [self] and mentions
    [name]. *)
Definition success_line_naming (self : Messenger) (name out : string) : bool :=
  existsb
    (fun l =>
       match styled_text (success_color self) l with
       | Some t => contains name t
       | None => false
       end)
    (lines_of out).

(** Reading a decimal count back from its text. *)
Definition read_count (s : string) : option nat :=
  option_map Nat.of_uint (NilZero.uint_of_string s).

(** A call that took the state from [s] to the result [r] completed
    normally, wrote [text] and one line feed to standard output, ended
    exactly one line there, and left standard error alone. *)
Definition writes_one_line {FS RunContext GlobalVars : Type}
    (text : string)
    (s : State FS RunContext GlobalVars)
    (r : outcome unit * State FS RunContext GlobalVars) : Prop :=
  fst r = Ret tt /\
  stdout (world (snd r)) = stdout (world s) ++ text ++ LF /\
  count_lf (stdout (world (snd r))) = S (count_lf (stdout (world s))) /\
  stderr (world (snd r)) = stderr (world s).

(** A step from [s] to the result [r] that did nothing but append to
    standard output (possibly nothing at all). *)
Definition only_appends_to_stdout {FS RunContext GlobalVars A : Type}
    (s : State FS RunContext GlobalVars)
    (r : outcome A * State FS RunContext GlobalVars) : Prop :=
  (exists text, stdout (world (snd r)) = stdout (world s) ++ text) /\
  stderr (world (snd r)) = stderr (world s) /\
  handlers (world (snd r)) = handlers (world s) /\
  cwd (world (snd r)) = cwd (world s) /\
  fs (world (snd r)) = fs (world s) /\
  calls (snd r) = calls s.

(** Number of escape characters in a text. *)
Fixpoint count_esc (s : string) : nat :=
  match s with
  | EmptyString => 0%nat
  | String c s' => if typer.is_esc c then S (count_esc s') else count_esc s'
  end.

(** The world a command hands to the context factory: the one the
    logging-level selector leaves. *)
Definition world_after_selector {FS RunContext GlobalVars : Type}
    (verbose quiet : pyint) (s : State FS RunContext GlobalVars) : World FS :=
  world (snd (set_cli_state (int_of verbose) (int_of quiet) s)).

(* ===================================================================== *)
(** ** A small instance of the collaborators *)
(* ===================================================================== *)

(** The file system is the list of files present; a context remembers the
    directory and the dry-run flag; the cleaner trashes every file (none
    when the run is dry) and yields the paths.  [w0] is a process as it
    starts: the logger knows its built-in levels and has its default
    handler, and standard output is a terminal.  [w_fatal] is [w0] after
    some module has registered a level named FATAL; [w_pipe] is [w_fatal]
    with standard output redirected. *)
Module Demo.
Definition FS : Type := list Path.
Definition RunContext : Type := (Path * bool)%type.
Definition GlobalVars : Type := unit.

Definition factory (here : Path) (dry_run : bool) (g : GlobalVars)
    (w : World FS) : outcome RunContext * World FS :=
  (Ret (here, dry_run), w).

Definition failing_factory (here : Path) (dry_run : bool) (g : GlobalVars)
    (w : World FS) : outcome RunContext * World FS :=
  (Raise (OtherError "FileNotFoundError"), w).

Definition cleaner (ctx : RunContext) (w : World FS) : outcome (list Path) * World FS :=
  if snd ctx then (Ret (fs w), w)
  else (Ret (fs w),
        mkWorld (cwd w) (handlers w) (log_levels w) (stdout w)
                (stdout_isatty w) (stderr w) []).

Definition failing_cleaner (ctx : RunContext) (w : World FS) :
    outcome (list Path) * World FS :=
  (Raise (OtherError "PermissionError"), w).

Definition files : list Path := ["build/a.o"; "dist/pkg.whl"; "x.pyc"].

Definition w0 : World FS :=
  mkWorld "/home/u/proj" [mkHandler Stderr "DEBUG"] logger.builtin_levels
          "" true "" files.

Definition w_fatal : World FS :=
  mkWorld "/home/u/proj" [mkHandler Stderr "DEBUG"]
          (logger.builtin_levels ++ ["FATAL"])%list "" true "" files.

Definition w_pipe : World FS :=
  mkWorld "/home/u/proj" [mkHandler Stderr "DEBUG"]
          (logger.builtin_levels ++ ["FATAL"])%list "" false "" files.

Definition s0 : State FS RunContext GlobalVars := mkState w0 [].
Definition s_fatal : State FS RunContext GlobalVars := mkState w_fatal [].
Definition s_pipe : State FS RunContext GlobalVars := mkState w_pipe [].

Definition this : Imported := import_module w0.
End Demo.

(* ===================================================================== *)
(** ** Auxiliary facts *)
(* ===================================================================== *)

Lemma level_index_is_6 (verbose quiet : Z) : level_index verbose quiet = 6.
Proof. unfold level_index. lia. Qed.

Lemma getitem_levels_6 : getitem levels 6 = Ret "FATAL".
Proof. reflexivity. Qed.

Lemma append_assoc (a b c : string) : (a ++ b) ++ c = a ++ b ++ c.
Proof. induction a as [|x a IH]; simpl; [reflexivity | now rewrite IH]. Qed.

Lemma append_empty_r (a : string) : a ++ "" = a.
Proof. induction a as [|x a IH]; simpl; [reflexivity | now rewrite IH]. Qed.

Lemma count_lf_app (a b : string) :
  count_lf (a ++ b) = (count_lf a + count_lf b)%nat.
Proof.
  induction a as [|c a IH]; simpl; [reflexivity|].
  destruct (Ascii.eqb c (ascii_of_nat 10)); simpl; now rewrite IH.
Qed.

Lemma count_lf_LF : count_lf LF = 1%nat.
Proof. reflexivity. Qed.

Lemma count_esc_app (a b : string) :
  count_esc (a ++ b) = (count_esc a + count_esc b)%nat.
Proof.
  induction a as [|c a IH]; simpl; [reflexivity|].
  destruct (typer.is_esc c); simpl; now rewrite IH.
Qed.

Lemma app_singleton_neq {A} (l : list A) (x : A) : (l ++ [x])%list <> l.
Proof.
  intros H. apply (f_equal (@List.length A)) in H.
  rewrite List.length_app in H. simpl in H. lia.
Qed.

(** A decimal rendering of a count reads back as that count. *)
Lemma read_count_str_of_nat (n : nat) : read_count (str_of_nat n) = Some n.
Proof.
  unfold read_count, str_of_nat.
  rewrite NilZero.usu.
  - simpl. now rewrite DecimalNat.Unsigned.of_to.
  - intro H. pose proof (DecimalNat.Unsigned.of_to n) as E.
    rewrite H in E. simpl in E. subst n. discriminate H.
Qed.

(** *** Stripping escape sequences *)

(** None of the characters of an escape sequence is a line feed. *)
Lemma class_not_lf (c : ascii) :
  typer.is_esc c = true \/ typer.is_bracket c = true \/
  typer.is_param c = true \/ typer.is_letter c = true ->
  Ascii.eqb c (ascii_of_nat 10) = false.
Proof.
  intros H. destruct (Ascii.eqb_spec c (ascii_of_nat 10)) as [->|]; [|reflexivity].
  destruct H as [H | [H | [H | H]]]; vm_compute in H; discriminate H.
Qed.

Lemma count_lf_snoc_class (p : string) (c : ascii) :
  typer.is_esc c = true \/ typer.is_bracket c = true \/
  typer.is_param c = true \/ typer.is_letter c = true ->
  count_lf (p ++ String c EmptyString) = count_lf p.
Proof.
  intros H. rewrite count_lf_app. simpl. rewrite (class_not_lf c H). lia.
Qed.

(** Stripping neither removes nor adds a line feed. *)
Lemma count_lf_strip_from (s : string) :
  forall (st : typer.scan) (pending : string),
    count_lf pending = 0%nat ->
    count_lf (typer.strip_from st pending s) = count_lf s.
Proof.
  induction s as [|c s IH]; intros st pending Hp.
  - destruct st; simpl; [reflexivity | exact Hp | exact Hp].
  - destruct st; cbn [typer.strip_from].
    + destruct (typer.is_esc c) eqn:E.
      * rewrite IH by (simpl; now rewrite (class_not_lf c (or_introl E))).
        simpl. now rewrite (class_not_lf c (or_introl E)).
      * simpl. now rewrite IH.
    + destruct (typer.is_bracket c) eqn:B.
      * rewrite IH by (rewrite count_lf_snoc_class; auto).
        simpl. rewrite (class_not_lf c); auto.
      * destruct (typer.is_esc c) eqn:E.
        -- rewrite count_lf_app, Hp, IH
             by (simpl; now rewrite (class_not_lf c (or_introl E))).
           simpl. now rewrite (class_not_lf c (or_introl E)).
        -- rewrite count_lf_app, Hp. simpl. now rewrite IH.
    + destruct (typer.is_param c) eqn:P.
      * rewrite IH by (rewrite count_lf_snoc_class; auto).
        simpl. rewrite (class_not_lf c); auto.
      * destruct (typer.is_letter c) eqn:L.
        -- rewrite IH by reflexivity. simpl. rewrite (class_not_lf c); auto.
        -- destruct (typer.is_esc c) eqn:E.
           ++ rewrite count_lf_app, Hp, IH
                by (simpl; now rewrite (class_not_lf c (or_introl E))).
              simpl. now rewrite (class_not_lf c (or_introl E)).
           ++ rewrite count_lf_app, Hp. simpl. now rewrite IH.
Qed.

Lemma count_lf_rendered (isatty : bool) (out : string) :
  count_lf (typer.rendered isatty out) = count_lf out.
Proof.
  destruct isatty; [reflexivity|].
  apply count_lf_strip_from. reflexivity.
Qed.

(** A suffix that closes any open candidate and is itself reduced to [t']
    can be stripped apart from what precedes it. *)
Lemma strip_from_app_sealed (t t' : string) :
  (forall st pending,
      typer.strip_from st pending t = typer.strip_from st pending "" ++ t') ->
  forall (s : string) (st : typer.scan) (pending : string),
    typer.strip_from st pending (s ++ t) = typer.strip_from st pending s ++ t'.
Proof.
  intros Ht. induction s as [|c s IH]; intros st pending.
  - apply Ht.
  - destruct st; cbn [append typer.strip_from].
    + destruct (typer.is_esc c); [apply IH | now rewrite IH].
    + destruct (typer.is_bracket c); [apply IH|].
      destruct (typer.is_esc c); rewrite IH, append_assoc; reflexivity.
    + destruct (typer.is_param c); [apply IH|].
      destruct (typer.is_letter c); [apply IH|].
      destruct (typer.is_esc c); rewrite IH, append_assoc; reflexivity.
Qed.

Lemma strip_ansi_line (s : string) :
  typer.strip_ansi (s ++ LF) = typer.strip_ansi s ++ LF.
Proof.
  apply strip_from_app_sealed.
  intros st pending. destruct st; reflexivity.
Qed.

Lemma strip_ansi_reset_line (s : string) :
  typer.strip_ansi (s ++ typer.sgr "0" ++ LF) = typer.strip_ansi s ++ LF.
Proof.
  apply strip_from_app_sealed.
  intros st pending. destruct st; reflexivity.
Qed.

(** A text without an escape character is left as it is. *)
Lemma strip_ansi_esc_free (s : string) :
  count_esc s = 0%nat -> typer.strip_ansi s = s.
Proof.
  unfold typer.strip_ansi.
  induction s as [|c s IH]; simpl; [reflexivity|].
  destruct (typer.is_esc c); [discriminate|].
  intros H. now rewrite IH.
Qed.

Section Facts.
Context {FS RunContext GlobalVars : Type}.
Implicit Types s : State FS RunContext GlobalVars.

(** What [set_cli_state] does, whatever the counts: it drops the handlers,
    then installs one at FATAL if the logger knows that name and raises
    [ValueError] if it does not. *)
Lemma set_cli_state_run (verbose quiet : Z) s :
  set_cli_state verbose quiet s =
  if logger.level_known "FATAL" (world s)
  then (Ret tt,
        mkState (with_handlers (world s) [mkHandler Stderr "FATAL"]) (calls s))
  else (Raise ValueError, mkState (with_handlers (world s) []) (calls s)).
Proof.
  unfold set_cli_state. rewrite level_index_is_6, getitem_levels_6.
  unfold bind, lift, logger.remove, logger.add, modify_world, get_world, bind.
  cbn [world calls].
  change (logger.level_known "FATAL" (with_handlers (world s) []))
    with (logger.level_known "FATAL" (world s)).
  destruct (logger.level_known "FATAL" (world s)); reflexivity.
Qed.

Lemma echo_run (message : string) s :
  typer.echo message s =
  (Ret tt,
   mkState (with_output (world s)
              (typer.rendered (stdout_isatty (world s)) (message ++ LF)))
           (calls s)).
Proof. reflexivity. Qed.

(** The two styled operations of the shared [messenger] instance, with the
    colour codes looked up. *)
Lemma success_run (msg : string) s :
  Messenger.success messenger msg s =
  typer.echo (typer.sgr "32" ++ typer.sgr "1" ++ msg ++ typer.sgr "0") s.
Proof. reflexivity. Qed.

Lemma failure_run (msg : string) s :
  Messenger.failure messenger msg s =
  typer.echo (typer.sgr "31" ++ typer.sgr "1" ++ msg ++ typer.sgr "0") s.
Proof. reflexivity. Qed.

(** An [echo] whose text comes out as [shown] and holds no line feed writes
    one line. *)
Lemma writes_one_line_echo (text shown : string) s :
  typer.rendered (stdout_isatty (world s)) (text ++ LF) = shown ++ LF ->
  count_lf text = 0%nat ->
  writes_one_line shown s (typer.echo text s).
Proof.
  intros Hr Ht. rewrite echo_run. unfold writes_one_line.
  cbn [fst snd world with_output stdout stderr].
  repeat split.
  - now rewrite Hr.
  - rewrite count_lf_app, count_lf_rendered, count_lf_app, Ht, count_lf_LF. lia.
Qed.
End Facts.

(* ===================================================================== *)
(** ** The logging-level selector *)
(* ===================================================================== *)

Section SelectorProperties.
Context {FS RunContext GlobalVars : Type}.
Implicit Types s : State FS RunContext GlobalVars.

(** C1.  For non-negative counts the innermost operand is
    [3 + quiet - verbose]; its minimum with 0 is never above 0, so the
    maximum with 6 is 6 for every pair of counts; the level looked up is the
    last of the scale, FATAL, and that is the level the selector asks the
    logger for. *)
Theorem C1_selected_index_is_upper_bound (verbose quiet : Z) s :
  0 <= verbose -> 0 <= quiet ->
  raw_index verbose quiet = 3 + quiet - verbose /\
  Z.min 0 (raw_index verbose quiet) <= 0 /\
  level_index verbose quiet = 6 /\
  getitem levels (level_index verbose quiet) = Ret "FATAL" /\
  set_cli_state verbose quiet s = (logger.remove ;; logger.add Stderr "FATAL") s.
Proof.
  intros _ _. split; [reflexivity|]. split; [lia|].
  split; [apply level_index_is_6|].
  split; [now rewrite level_index_is_6|].
  unfold set_cli_state. now rewrite level_index_is_6, getitem_levels_6.
Qed.

(** C2 (what the code does).  In a process whose logger knows no level
    named FATAL, as with the levels the logger starts with, a call of the
    selector drops every handler and then raises [ValueError] from
    [logger.add]: no handler is left, and a call written after it is never
    reached. *)
Theorem C2_selector_leaves_no_sink (verbose quiet verbose' quiet' : Z) s :
  logger.level_known "FATAL" (world s) = false ->
  set_cli_state verbose quiet s
  = (Raise ValueError, mkState (with_handlers (world s) []) (calls s)) /\
  handlers (world (snd (set_cli_state verbose quiet s))) = [] /\
  (set_cli_state verbose quiet ;; set_cli_state verbose' quiet') s
  = set_cli_state verbose quiet s.
Proof.
  intros H. unfold bind. rewrite set_cli_state_run, H. repeat split.
Qed.

(** X1.  For any two integers, negative ones included, [set_cli_state]
    never raises [IndexError]: it completes when the logger knows a level
    named FATAL and raises [ValueError] when it does not.  Either way it
    touches nothing but the handlers, and its result does not depend on the
    two counts. *)
Theorem set_cli_state_frame (verbose quiet : Z) s :
  fst (set_cli_state verbose quiet s)
  = (if logger.level_known "FATAL" (world s) then Ret tt else Raise ValueError) /\
  cwd (world (snd (set_cli_state verbose quiet s))) = cwd (world s) /\
  log_levels (world (snd (set_cli_state verbose quiet s))) = log_levels (world s) /\
  stdout (world (snd (set_cli_state verbose quiet s))) = stdout (world s) /\
  stderr (world (snd (set_cli_state verbose quiet s))) = stderr (world s) /\
  fs (world (snd (set_cli_state verbose quiet s))) = fs (world s) /\
  calls (snd (set_cli_state verbose quiet s)) = calls s /\
  forall verbose' quiet' : Z,
    set_cli_state verbose' quiet' s = set_cli_state verbose quiet s.
Proof.
  rewrite set_cli_state_run.
  destruct (logger.level_known "FATAL" (world s)) eqn:K; repeat split;
    intros verbose' quiet'; now rewrite set_cli_state_run, K.
Qed.

(** X2.  In a process where a level named FATAL has been registered with
    the logger, [set_cli_state] is idempotent: a call that follows another
    one ends in the very state a single call ends in, with one handler, on
    standard error, at FATAL. *)
Theorem set_cli_state_idempotent (verbose quiet verbose' quiet' : Z) s :
  logger.level_known "FATAL" (world s) = true ->
  (set_cli_state verbose quiet ;; set_cli_state verbose' quiet') s
  = set_cli_state verbose' quiet' s /\
  handlers (world (snd (set_cli_state verbose' quiet' s)))
  = [mkHandler Stderr "FATAL"].
Proof.
  intros H. unfold bind. rewrite (set_cli_state_run verbose quiet s), H.
  rewrite !set_cli_state_run. cbn [world with_handlers].
  change (logger.level_known "FATAL"
            (with_handlers (world s) [mkHandler Stderr "FATAL"]))
    with (logger.level_known "FATAL" (world s)).
  rewrite H. split; reflexivity.
Qed.
End SelectorProperties.

(** C1 at two verbose flags and one quiet flag. *)
Lemma C1_witness :
  0 <= 2 /\ 0 <= 1 /\
  level_index 2 1 = 6 /\
  getitem levels (level_index 2 1) = Ret "FATAL".
Proof.
  assert (H : 0 <= 2) by lia.
  assert (H' : 0 <= 1) by lia.
  split; [exact H|]. split; [exact H'|].
  pose proof (C1_selected_index_is_upper_bound 2 1 Demo.s0 H H') as P.
  split; [apply P | apply P].
Defined.

(** C2 in a process as it starts: the default handler is gone and none
    took its place. *)
Lemma C2_witness :
  logger.level_known "FATAL" (world Demo.s0) = false /\
  fst (set_cli_state 0 0 Demo.s0) = Raise ValueError /\
  handlers (world (snd (set_cli_state 0 0 Demo.s0))) = [].
Proof.
  assert (H : logger.level_known "FATAL" (world Demo.s0) = false) by reflexivity.
  split; [exact H|].
  pose proof (C2_selector_leaves_no_sink 0 0 0 0 Demo.s0 H) as [E [P _]].
  split; [now rewrite E | exact P].
Defined.

(** X2 in a process where FATAL has been registered. *)
Lemma set_cli_state_idempotent_witness :
  logger.level_known "FATAL" (world Demo.s_fatal) = true /\
  (set_cli_state 1 0 ;; set_cli_state 0 2) Demo.s_fatal
  = set_cli_state 0 2 Demo.s_fatal.
Proof.
  assert (H : logger.level_known "FATAL" (world Demo.s_fatal) = true)
    by reflexivity.
  split; [exact H|].
  exact (proj1 (set_cli_state_idempotent 1 0 0 2 Demo.s_fatal H)).
Defined.

(* ===================================================================== *)
(** ** Messenger *)
(* ===================================================================== *)

Section MessengerProperties.
Context {FS RunContext GlobalVars : Type}.
Implicit Types s : State FS RunContext GlobalVars.

(** C6 (amended).  For a message without a line feed, [success], [failure]
    and [info] each write exactly one line to standard output and nothing
    to standard error.  When standard output is a terminal the line of
    [success] is the message in green bold, that of [failure] the message
    in red bold, and that of [info] the message as it is; when it is not a
    terminal the escape sequences are removed, so that all three write the
    message without styling. *)
Theorem C6_messenger_one_line (msg : string) s :
  count_lf msg = 0%nat ->
  (stdout_isatty (world s) = true ->
   writes_one_line
     (typer.sgr "32" ++ typer.sgr "1" ++ msg ++ typer.sgr "0") s
     (Messenger.success messenger msg s) /\
   writes_one_line
     (typer.sgr "31" ++ typer.sgr "1" ++ msg ++ typer.sgr "0") s
     (Messenger.failure messenger msg s) /\
   writes_one_line msg s (Messenger.info messenger msg s)) /\
  (stdout_isatty (world s) = false ->
   writes_one_line (typer.strip_ansi msg) s (Messenger.success messenger msg s) /\
   writes_one_line (typer.strip_ansi msg) s (Messenger.failure messenger msg s) /\
   writes_one_line (typer.strip_ansi msg) s (Messenger.info messenger msg s)).
Proof.
  intros H.
  assert (Hs : forall c, count_lf (typer.sgr c) = count_lf c).
  { intros c. unfold typer.sgr. rewrite !count_lf_app. simpl. lia. }
  assert (Hstyled : forall c,
    count_lf c = 0%nat ->
    count_lf (typer.sgr c ++ typer.sgr "1" ++ msg ++ typer.sgr "0") = 0%nat).
  { intros c Hc. rewrite !count_lf_app, !Hs, H, Hc. reflexivity. }
  split; intros T.
  - rewrite success_run, failure_run. unfold Messenger.info.
    split; [|split].
    all: apply writes_one_line_echo;
      [rewrite T; reflexivity | try exact H; apply Hstyled; reflexivity].
  - rewrite success_run, failure_run. unfold Messenger.info.
    split; [|split].
    all: apply writes_one_line_echo;
      [rewrite T | try exact H; apply Hstyled; reflexivity].
    + rewrite !append_assoc. apply (strip_ansi_reset_line msg).
    + rewrite !append_assoc. apply (strip_ansi_reset_line msg).
    + apply strip_ansi_line.
Qed.

(** X3.  Whatever the colours of the [Messenger] and whatever the message,
    [success], [info] and [failure] only ever append to standard output:
    what was there stays in front, and standard error, the log handlers,
    the working directory, the file system and the record of collaborator
    calls are left as they were; this holds also when the styling raises. *)
Theorem messenger_only_appends_to_stdout (self : Messenger) (msg : string) s :
  only_appends_to_stdout s (Messenger.success self msg s) /\
  only_appends_to_stdout s (Messenger.info self msg s) /\
  only_appends_to_stdout s (Messenger.failure self msg s).
Proof.
  assert (E : forall text, only_appends_to_stdout s (typer.echo text s)).
  { intros text. rewrite echo_run. unfold only_appends_to_stdout.
    cbn [snd world with_output stdout stderr handlers cwd fs calls].
    repeat split.
    now exists (typer.rendered (stdout_isatty (world s)) (text ++ LF)). }
  assert (R : forall e : exn,
             only_appends_to_stdout s (@Raise unit e, s)).
  { intros e. unfold only_appends_to_stdout. cbn [snd].
    repeat split. exists "". now rewrite append_empty_r. }
  split; [|split].
  - unfold Messenger.success, bind, lift.
    destruct (typer.style msg (success_color self) true); [apply E | apply R].
  - apply E.
  - unfold Messenger.failure, bind, lift.
    destruct (typer.style msg (error_color self) true); [apply E | apply R].
Qed.

(** X4.  When neither the project name nor the version holds a line feed
    or an escape character, [show_project_info] writes the one unstyled
    line "<name> v<version>" to standard output and nothing to standard
    error, whatever the colours of the [Messenger] and whether or not
    standard output is a terminal. *)
Theorem show_project_info_one_line
    (about_name about_version : string) (self : Messenger) s :
  count_lf about_name = 0%nat ->
  count_lf about_version = 0%nat ->
  count_esc about_name = 0%nat ->
  count_esc about_version = 0%nat ->
  writes_one_line (about_name ++ " v" ++ about_version) s
    (Messenger.show_project_info about_name about_version self s).
Proof.
  intros Hn Hv En Ev. unfold Messenger.show_project_info, Messenger.info.
  apply writes_one_line_echo.
  - destruct (stdout_isatty (world s)); [reflexivity|].
    apply strip_ansi_esc_free.
    rewrite !count_esc_app, En, Ev. reflexivity.
  - rewrite !count_lf_app, Hn, Hv. reflexivity.
Qed.
End MessengerProperties.

(** C6 (amended) on the message ["done"], on a terminal. *)
Lemma C6_witness :
  count_lf "done" = 0%nat /\
  writes_one_line "done" Demo.s0 (Messenger.info messenger "done" Demo.s0).
Proof.
  assert (H : count_lf "done" = 0%nat) by reflexivity.
  split; [exact H|].
  apply (proj1 (C6_messenger_one_line "done" Demo.s0 H) eq_refl).
Defined.

(** C6 as stated fails on a message that holds a line feed: [info] then
    ends two lines on standard output, not one.  It also fails when
    standard output is not a terminal: [success] then writes the bare
    message. *)
Lemma C6_counterexample :
  count_lf (stdout (world Demo.s0)) = 0%nat /\
  count_lf (stdout (world (snd
    (Messenger.info messenger ("a" ++ LF ++ "b") Demo.s0)))) = 2%nat /\
  ~ writes_one_line ("a" ++ LF ++ "b") Demo.s0
      (Messenger.info messenger ("a" ++ LF ++ "b") Demo.s0) /\
  stdout_isatty (world Demo.s_pipe) = false /\
  stdout (world (snd (Messenger.success messenger "ok" Demo.s_pipe)))
  = "ok" ++ LF.
Proof.
  split; [reflexivity|]. split; [reflexivity|].
  split; [|split; reflexivity].
  intros (_ & _ & H & _). vm_compute in H. discriminate H.
Qed.

(** X4 on the banner of version 0.1.0. *)
Lemma show_project_info_one_line_witness :
  count_lf "tyranno" = 0%nat /\
  count_lf "0.1.0" = 0%nat /\
  count_esc "tyranno" = 0%nat /\
  count_esc "0.1.0" = 0%nat /\
  stdout (world (snd (Messenger.show_project_info "tyranno" "0.1.0"
                        messenger Demo.s_pipe)))
  = "tyranno v0.1.0" ++ LF.
Proof.
  assert (Hn : count_lf "tyranno" = 0%nat) by reflexivity.
  assert (Hv : count_lf "0.1.0" = 0%nat) by reflexivity.
  assert (En : count_esc "tyranno" = 0%nat) by reflexivity.
  assert (Ev : count_esc "0.1.0" = 0%nat) by reflexivity.
  split; [exact Hn|]. split; [exact Hv|]. split; [exact En|]. split; [exact Ev|].
  exact (proj1 (proj2
    (show_project_info_one_line "tyranno" "0.1.0" messenger Demo.s_pipe
       Hn Hv En Ev))).
Defined.

(* ===================================================================== *)
(** ** The commands *)
(* ===================================================================== *)

Lemma count_esc_string_of_uint (d : Decimal.uint) :
  count_esc (NilEmpty.string_of_uint d) = 0%nat.
Proof. induction d; simpl; auto. Qed.

Lemma count_esc_str_of_nat (n : nat) : count_esc (str_of_nat n) = 0%nat.
Proof.
  unfold str_of_nat, NilZero.string_of_uint.
  destruct (Nat.to_uint n); try reflexivity; apply count_esc_string_of_uint.
Qed.

(** The report of [clean] reaches the stream as it is, terminal or not. *)
Lemma rendered_report (isatty : bool) (n : nat) :
  typer.rendered isatty (("Trashed " ++ str_of_nat n ++ " paths.") ++ LF)
  = ("Trashed " ++ str_of_nat n ++ " paths.") ++ LF.
Proof.
  destruct isatty; [reflexivity|].
  apply strip_ansi_esc_free.
  rewrite !count_esc_app, count_esc_str_of_nat. reflexivity.
Qed.

Section CommandProperties.
Context {FS RunContext GlobalVars : Type}.
Variable _GLOBAL_VARS : GlobalVars.
Variable DefaultContextFactory :
  Path -> bool -> GlobalVars -> World FS -> outcome RunContext * World FS.
Variable Cleaner_run :
  RunContext -> World FS -> outcome (list Path) * World FS.
Variable this : Imported.
Implicit Types s : State FS RunContext GlobalVars.

Lemma world_after_selector_known (verbose quiet : pyint) s :
  logger.level_known "FATAL" (world s) = true ->
  world_after_selector verbose quiet s
  = with_handlers (world s) [mkHandler Stderr "FATAL"].
Proof. intros K. unfold world_after_selector. now rewrite set_cli_state_run, K. Qed.

(** A command whose selector raises stops there. *)
Lemma selector_raises (a b : Z) (k : M FS RunContext GlobalVars unit) s :
  logger.level_known "FATAL" (world s) = false ->
  (set_cli_state a b ;; k) s
  = (Raise ValueError, mkState (with_handlers (world s) []) (calls s)).
Proof. intros K. unfold bind. now rewrite set_cli_state_run, K. Qed.

Lemma selector_flags_irrelevant (a b a' b' : Z)
    (k : M FS RunContext GlobalVars unit) s :
  (set_cli_state a b ;; k) s = (set_cli_state a' b' ;; k) s.
Proof. unfold bind. now rewrite !set_cli_state_run. Qed.

(** Building the context right after a selector that returns: the factory
    runs on the world the selector left and the call is recorded. *)
Lemma selector_then_context (verbose quiet : pyint) (dry_run : bool) s
    (k : RunContext -> M FS RunContext GlobalVars unit) :
  logger.level_known "FATAL" (world s) = true ->
  (set_cli_state (int_of verbose) (int_of quiet) ;;
   context <- CliCommands.make_context _GLOBAL_VARS DefaultContextFactory dry_run ;;
   k context) s =
  match DefaultContextFactory
          (cwd (world_after_selector verbose quiet s)) dry_run _GLOBAL_VARS
          (world_after_selector verbose quiet s) with
  | (Ret context, w1) =>
      k context
        (mkState w1 (calls s ++ [ContextFactoryCall (cwd (world s)) dry_run
                                                    _GLOBAL_VARS])%list)
  | (Raise e, w1) =>
      (Raise e,
       mkState w1 (calls s ++ [ContextFactoryCall (cwd (world s)) dry_run
                                                  _GLOBAL_VARS])%list)
  end.
Proof.
  intros K. rewrite (world_after_selector_known _ _ _ K).
  unfold bind at 1. rewrite set_cli_state_run, K.
  unfold bind, CliCommands.make_context, os.getcwd, get_world, ret, call, bind.
  cbn [world calls cwd with_handlers].
  destruct (DefaultContextFactory _ _ _ _) as [[context|e] w1]; reflexivity.
Qed.

(** What [new] does past the guard when the selector returns, by what the
    context factory does. *)
Lemma new_past_guard
    (path : arg (option Path)) (name : arg (option string))
    (license_id : arg string) (dry_run : arg bool) (verbose quiet : arg pyint) s :
  is_None (or_default path (Some (new_path_default this)))
    && is_None (or_default name (Some "my-project")) = false ->
  logger.level_known "FATAL" (world s) = true ->
  CliCommands.new _GLOBAL_VARS DefaultContextFactory this
    path name license_id dry_run verbose quiet s
  = match DefaultContextFactory
            (cwd (world_after_selector (or_default verbose (PyBool false))
                                       (or_default quiet (PyBool false)) s))
            (or_default dry_run false) _GLOBAL_VARS
            (world_after_selector (or_default verbose (PyBool false))
                                  (or_default quiet (PyBool false)) s)
    with
    | (Ret _, w1) =>
        (Ret tt,
         mkState
           (with_output w1
              (typer.rendered (stdout_isatty w1)
                 (("Done! Created a new repository under "
                   ++ format_opt (or_default name (Some "my-project"))) ++ LF)
               ++ typer.rendered (stdout_isatty w1)
                 ((typer.sgr "32" ++ typer.sgr "1"
                   ++ "See https://dmyersturnbull.github.io/tyranno/guide.html"
                   ++ typer.sgr "0") ++ LF)))
           (calls s ++ [ContextFactoryCall (cwd (world s))
                          (or_default dry_run false) _GLOBAL_VARS])%list)
    | (Raise e, w1) =>
        (Raise e,
         mkState w1
           (calls s ++ [ContextFactoryCall (cwd (world s))
                          (or_default dry_run false) _GLOBAL_VARS])%list)
    end.
Proof.
  intros Hguard K.
  unfold CliCommands.new, CliCommands.new_body, CliCommands.new_bind.
  cbn [new_path new_name new_dry_run new_verbose new_quiet].
  rewrite Hguard, (selector_then_context _ _ _ _ _ K).
  destruct (DefaultContextFactory _ _ _ _) as [[context|e] w1]; [|reflexivity].
  unfold bind at 1. unfold Messenger.info. rewrite echo_run.
  rewrite success_run, echo_run. unfold with_output.
  cbn [world calls cwd handlers log_levels stdout stdout_isatty stderr fs].
  now rewrite !append_assoc.
Qed.

(** What [clean] does when the selector returns, by what the two
    collaborators do. *)
Lemma clean_by_cases (dry_run : arg bool) (verbose quiet : arg pyint) s :
  logger.level_known "FATAL" (world s) = true ->
  CliCommands.clean _GLOBAL_VARS DefaultContextFactory Cleaner_run
    dry_run verbose quiet s
  = match DefaultContextFactory
            (cwd (world_after_selector (or_default verbose (PyBool false))
                                       (or_default quiet (PyBool false)) s))
            (or_default dry_run false) _GLOBAL_VARS
            (world_after_selector (or_default verbose (PyBool false))
                                  (or_default quiet (PyBool false)) s)
    with
    | (Ret context, w1) =>
        match Cleaner_run context w1 with
        | (Ret trashed, w2) =>
            (Ret tt,
             mkState
               (with_output w2
                  (("Trashed " ++ str_of_nat (List.length trashed) ++ " paths.")
                   ++ LF))
               (calls s ++ [ContextFactoryCall (cwd (world s))
                              (or_default dry_run false) _GLOBAL_VARS;
                            CleanerRunCall context])%list)
        | (Raise e, w2) =>
            (Raise e,
             mkState w2
               (calls s ++ [ContextFactoryCall (cwd (world s))
                              (or_default dry_run false) _GLOBAL_VARS;
                            CleanerRunCall context])%list)
        end
    | (Raise e, w1) =>
        (Raise e,
         mkState w1
           (calls s ++ [ContextFactoryCall (cwd (world s))
                          (or_default dry_run false) _GLOBAL_VARS])%list)
    end.
Proof.
  intros K.
  unfold CliCommands.clean, CliCommands.clean_body, CliCommands.opts_bind.
  cbn [opt_dry_run opt_verbose opt_quiet].
  rewrite (selector_then_context _ _ _ _ _ K).
  destruct (DefaultContextFactory _ _ _ _) as [[context|e] w1]; [|reflexivity].
  unfold bind, call. cbn [world calls].
  destruct (Cleaner_run context w1) as [[trashed|e] w2].
  - unfold Messenger.info. rewrite echo_run. cbn [world calls].
    now rewrite rendered_report, <- List.app_assoc.
  - now rewrite <- List.app_assoc.
Qed.

(** What [sync] does when the selector returns, by what the context factory
    does. *)
Lemma sync_by_cases (dry_run : arg bool) (verbose quiet : arg pyint) s :
  logger.level_known "FATAL" (world s) = true ->
  CliCommands.sync _GLOBAL_VARS DefaultContextFactory dry_run verbose quiet s
  = match DefaultContextFactory
            (cwd (world_after_selector (or_default verbose (PyBool false))
                                       (or_default quiet (PyBool false)) s))
            (or_default dry_run false) _GLOBAL_VARS
            (world_after_selector (or_default verbose (PyBool false))
                                  (or_default quiet (PyBool false)) s)
    with
    | (Ret _, w1) =>
        (Ret tt,
         mkState (with_output w1 ("Syncing metadata..." ++ LF))
           (calls s ++ [ContextFactoryCall (cwd (world s))
                          (or_default dry_run false) _GLOBAL_VARS])%list)
    | (Raise e, w1) =>
        (Raise e,
         mkState w1
           (calls s ++ [ContextFactoryCall (cwd (world s))
                          (or_default dry_run false) _GLOBAL_VARS])%list)
    end.
Proof.
  intros K.
  unfold CliCommands.sync, CliCommands.sync_body, CliCommands.opts_bind.
  cbn [opt_dry_run opt_verbose opt_quiet].
  rewrite (selector_then_context _ _ _ _ _ K).
  destruct (DefaultContextFactory _ _ _ _) as [[context|e] w1]; [|reflexivity].
  unfold Messenger.info. rewrite echo_run. cbn [world calls].
  now destruct (stdout_isatty w1).
Qed.
End CommandProperties.

Section CommandClaims.
Context {FS RunContext GlobalVars : Type}.
Variable _GLOBAL_VARS : GlobalVars.
Variable DefaultContextFactory :
  Path -> bool -> GlobalVars -> World FS -> outcome RunContext * World FS.
Variable Cleaner_run :
  RunContext -> World FS -> outcome (list Path) * World FS.
Variable this : Imported.
Implicit Types s : State FS RunContext GlobalVars.

(** C3 (what the code does).  In a process whose logger knows no level
    named FATAL, [clean] stops in its first statement: the selector drops
    the handlers and raises [ValueError], so the context factory and the
    cleaner are never called and no count is written. *)
Theorem C3_clean_stops_before_cleaning
    (dry_run : arg bool) (verbose quiet : arg pyint) s :
  logger.level_known "FATAL" (world s) = false ->
  CliCommands.clean _GLOBAL_VARS DefaultContextFactory Cleaner_run
    dry_run verbose quiet s
  = (Raise ValueError, mkState (with_handlers (world s) []) (calls s)).
Proof. intros K. now apply selector_raises. Qed.

(** C4 (amended).  When [new] is called with [path] and [name] both [None],
    it raises [typer.Exit] with code 0 and nothing else happens: the state
    is the one it started from, so no handler was replaced, no collaborator
    was called and nothing was written. *)
Theorem C4_new_early_exit
    (license_id : arg string) (dry_run : arg bool) (verbose quiet : arg pyint) s :
  CliCommands.new _GLOBAL_VARS DefaultContextFactory this
    (Given None) (Given None) license_id dry_run verbose quiet s
  = (Raise (typer_Exit 0), s).
Proof. reflexivity. Qed.

(** C5 (what the code does).  In a process whose logger knows no level
    named FATAL, [sync] stops in its first statement: the selector drops
    the handlers and raises [ValueError], so the context factory is never
    called and "Syncing metadata..." is not written. *)
Theorem C5_sync_stops_before_message
    (dry_run : arg bool) (verbose quiet : arg pyint) s :
  logger.level_known "FATAL" (world s) = false ->
  CliCommands.sync _GLOBAL_VARS DefaultContextFactory dry_run verbose quiet s
  = (Raise ValueError, mkState (with_handlers (world s) []) (calls s)).
Proof. intros K. now apply selector_raises. Qed.

(** C7 (amended).  When [new] does not take the early exit, the selector
    has installed its handler (the logger knows a level named FATAL) and
    the context is built, [new] completes normally and writes two lines:
    the message that names the project, unstyled (through [info]), then the
    pointer to the documentation in green bold (through [success]); when
    standard output is not a terminal both reach it with the escape
    sequences removed. *)
Theorem C7_new_messages
    (path : arg (option Path)) (name : arg (option string))
    (license_id : arg string) (dry_run : arg bool) (verbose quiet : arg pyint) s
    (context : RunContext) (w1 : World FS) :
  is_None (or_default path (Some (new_path_default this)))
    && is_None (or_default name (Some "my-project")) = false ->
  logger.level_known "FATAL" (world s) = true ->
  DefaultContextFactory
    (cwd (world_after_selector (or_default verbose (PyBool false))
                               (or_default quiet (PyBool false)) s))
    (or_default dry_run false) _GLOBAL_VARS
    (world_after_selector (or_default verbose (PyBool false))
                          (or_default quiet (PyBool false)) s)
  = (Ret context, w1) ->
  fst (CliCommands.new _GLOBAL_VARS DefaultContextFactory this
         path name license_id dry_run verbose quiet s) = Ret tt /\
  stdout (world (snd (CliCommands.new _GLOBAL_VARS DefaultContextFactory this
                        path name license_id dry_run verbose quiet s))) =
    stdout w1
    ++ typer.rendered (stdout_isatty w1)
         (("Done! Created a new repository under "
           ++ format_opt (or_default name (Some "my-project"))) ++ LF)
    ++ typer.rendered (stdout_isatty w1)
         ((typer.sgr "32" ++ typer.sgr "1"
           ++ "See https://dmyersturnbull.github.io/tyranno/guide.html"
           ++ typer.sgr "0") ++ LF).
Proof.
  intros G K Hctx.
  rewrite (new_past_guard _GLOBAL_VARS DefaultContextFactory this
             _ _ license_id _ _ _ s G K), Hctx.
  split; reflexivity.
Qed.


(** C9.  Two calls of [new] that differ only in a [path] that is not [None]
    and in [license_id] have the same outcome and end in the same state:
    the same console output and the same recorded call of the context
    factory, whose directory argument is read from the process, not from
    [path]. *)
Theorem C9_new_ignores_path_and_license
    (path1 path2 : Path) (license1 license2 : arg string)
    (name : arg (option string)) (dry_run : arg bool)
    (verbose quiet : arg pyint) s :
  CliCommands.new _GLOBAL_VARS DefaultContextFactory this
    (Given (Some path1)) name license1 dry_run verbose quiet s
  = CliCommands.new _GLOBAL_VARS DefaultContextFactory this
      (Given (Some path2)) name license2 dry_run verbose quiet s.
Proof. reflexivity. Qed.

(** C10 (what the code does).  Whatever is left out or supplied for [path]
    and [name] (a supplied value is a path or a string, never [None]), the
    guard of the early exit is false, as the claim says; but in a process
    whose logger knows no level named FATAL the selector then raises
    [ValueError], and [new] ends without having called the context
    factory. *)
Theorem C10_guard_false_factory_unreached
    (path : arg Path) (name : arg string) (license_id : arg string)
    (dry_run : arg bool) (verbose quiet : arg pyint) s :
  logger.level_known "FATAL" (world s) = false ->
  is_None (new_path (CliCommands.new_bind this (supplied path) (supplied name)
                       license_id dry_run verbose quiet))
  && is_None (new_name (CliCommands.new_bind this (supplied path) (supplied name)
                          license_id dry_run verbose quiet)) = false /\
  CliCommands.new _GLOBAL_VARS DefaultContextFactory this
    (supplied path) (supplied name) license_id dry_run verbose quiet s
  = (Raise ValueError, mkState (with_handlers (world s) []) (calls s)).
Proof.
  intros K.
  assert (G : is_None (new_path (CliCommands.new_bind this (supplied path)
                 (supplied name) license_id dry_run verbose quiet))
              && is_None (new_name (CliCommands.new_bind this (supplied path)
                 (supplied name) license_id dry_run verbose quiet)) = false).
  { destruct path, name; reflexivity. }
  split; [exact G|].
  unfold CliCommands.new, CliCommands.new_body. rewrite G.
  now apply selector_raises.
Qed.
End CommandClaims.

(* ===================================================================== *)
(** ** Further properties of the commands *)
(* ===================================================================== *)

Section FurtherCommands.
Context {FS RunContext GlobalVars : Type}.
Variable _GLOBAL_VARS : GlobalVars.
Variable DefaultContextFactory :
  Path -> bool -> GlobalVars -> World FS -> outcome RunContext * World FS.
Variable Cleaner_run :
  RunContext -> World FS -> outcome (list Path) * World FS.
Variable this : Imported.
Implicit Types s : State FS RunContext GlobalVars.

(** X5.  The [--verbose] and [--quiet] counts have no effect on any of the
    three commands: two calls that differ only in these counts have the
    same outcome and end in the same state. *)
Theorem commands_ignore_verbosity
    (path : arg (option Path)) (name : arg (option string))
    (license_id : arg string) (dry_run : arg bool)
    (verbose quiet verbose' quiet' : arg pyint) s :
  CliCommands.new _GLOBAL_VARS DefaultContextFactory this
    path name license_id dry_run verbose quiet s
  = CliCommands.new _GLOBAL_VARS DefaultContextFactory this
      path name license_id dry_run verbose' quiet' s /\
  CliCommands.sync _GLOBAL_VARS DefaultContextFactory dry_run verbose quiet s
  = CliCommands.sync _GLOBAL_VARS DefaultContextFactory dry_run verbose' quiet' s /\
  CliCommands.clean _GLOBAL_VARS DefaultContextFactory Cleaner_run
    dry_run verbose quiet s
  = CliCommands.clean _GLOBAL_VARS DefaultContextFactory Cleaner_run
      dry_run verbose' quiet' s.
Proof.
  split; [|split].
  - unfold CliCommands.new, CliCommands.new_body, CliCommands.new_bind.
    cbn [new_path new_name new_dry_run new_verbose new_quiet].
    destruct (is_None _ && is_None _); [reflexivity|].
    apply selector_flags_irrelevant.
  - apply selector_flags_irrelevant.
  - apply selector_flags_irrelevant.
Qed.

(** X6.  In a process where a level named FATAL has been registered with
    the logger, [new] leaves the context factory uncalled exactly when
    [path] and [name] are both passed as [None]; a single [None], or an
    argument left out, does not keep the factory from being called. *)
Theorem new_skips_factory_iff_both_None
    (path : arg (option Path)) (name : arg (option string))
    (license_id : arg string) (dry_run : arg bool) (verbose quiet : arg pyint) s :
  logger.level_known "FATAL" (world s) = true ->
  calls (snd (CliCommands.new _GLOBAL_VARS DefaultContextFactory this
                path name license_id dry_run verbose quiet s)) = calls s
  <-> path = Given None /\ name = Given None.
Proof.
  intros K.
  assert (P : forall p n,
    is_None (or_default p (Some (new_path_default this)))
      && is_None (or_default n (Some "my-project")) = false ->
    calls (snd (CliCommands.new _GLOBAL_VARS DefaultContextFactory this
                  p n license_id dry_run verbose quiet s)) <> calls s).
  { intros p n G.
    rewrite (new_past_guard _GLOBAL_VARS DefaultContextFactory this
               p n _ _ _ _ s G K).
    destruct (DefaultContextFactory _ _ _ _) as [[context|e] w1];
      cbn [snd calls]; apply app_singleton_neq. }
  split.
  - intros H.
    destruct path as [|[p|]], name as [|[n|]];
      try (exfalso; revert H; apply P; reflexivity).
    split; reflexivity.
  - intros [-> ->]. reflexivity.
Qed.

(** X7.  A [name] passed as [None] next to a [path] that is left out or
    supplied does not stop [new]: when the selector has installed its
    handler and the context is built, the first line written names the
    project "None". *)
Theorem new_name_None_is_printed
    (path : arg Path) (license_id : arg string) (dry_run : arg bool)
    (verbose quiet : arg pyint) s (context : RunContext) (w1 : World FS) :
  logger.level_known "FATAL" (world s) = true ->
  DefaultContextFactory
    (cwd (world_after_selector (or_default verbose (PyBool false))
                               (or_default quiet (PyBool false)) s))
    (or_default dry_run false) _GLOBAL_VARS
    (world_after_selector (or_default verbose (PyBool false))
                          (or_default quiet (PyBool false)) s)
  = (Ret context, w1) ->
  fst (CliCommands.new _GLOBAL_VARS DefaultContextFactory this
         (supplied path) (Given None) license_id dry_run verbose quiet s) = Ret tt /\
  stdout (world (snd (CliCommands.new _GLOBAL_VARS DefaultContextFactory this
         (supplied path) (Given None) license_id dry_run verbose quiet s)))
  = stdout w1
    ++ ("Done! Created a new repository under None" ++ LF)
    ++ typer.rendered (stdout_isatty w1)
         ((typer.sgr "32" ++ typer.sgr "1"
           ++ "See https://dmyersturnbull.github.io/tyranno/guide.html"
           ++ typer.sgr "0") ++ LF).
Proof.
  intros K Hctx.
  assert (G : is_None (or_default (supplied path) (Some (new_path_default this)))
              && is_None (or_default (@Given (option string) None)
                                     (Some "my-project")) = false)
    by (destruct path; reflexivity).
  rewrite (new_past_guard _GLOBAL_VARS DefaultContextFactory this
             _ _ license_id dry_run verbose quiet s G K), Hctx.
  split; [reflexivity|].
  cbn [snd world with_output stdout or_default format_opt].
  now destruct (stdout_isatty w1).
Qed.

(** X8.  When [new] is past its guard, the selector has installed its
    handler and the context factory raises, the exception leaves [new]:
    neither line is written, the factory call is the only one recorded, and
    the world is the one the factory left. *)
Theorem new_factory_raises
    (path : arg (option Path)) (name : arg (option string))
    (license_id : arg string) (dry_run : arg bool) (verbose quiet : arg pyint) s
    (e : exn) (w1 : World FS) :
  is_None (or_default path (Some (new_path_default this)))
    && is_None (or_default name (Some "my-project")) = false ->
  logger.level_known "FATAL" (world s) = true ->
  DefaultContextFactory
    (cwd (world_after_selector (or_default verbose (PyBool false))
                               (or_default quiet (PyBool false)) s))
    (or_default dry_run false) _GLOBAL_VARS
    (world_after_selector (or_default verbose (PyBool false))
                          (or_default quiet (PyBool false)) s)
  = (Raise e, w1) ->
  CliCommands.new _GLOBAL_VARS DefaultContextFactory this
    path name license_id dry_run verbose quiet s
  = (Raise e,
     mkState w1
       (calls s ++ [ContextFactoryCall (cwd (world s)) (or_default dry_run false)
                                       _GLOBAL_VARS])%list).
Proof.
  intros G K Hctx.
  now rewrite (new_past_guard _GLOBAL_VARS DefaultContextFactory this
                 _ _ license_id _ _ _ s G K), Hctx.
Qed.

(** X9.  When the selector has installed its handler and the context
    factory raises, the exception leaves [clean]: the cleaner is never run
    and nothing is written. *)
Theorem clean_factory_raises
    (dry_run : arg bool) (verbose quiet : arg pyint) s (e : exn) (w1 : World FS) :
  logger.level_known "FATAL" (world s) = true ->
  DefaultContextFactory
    (cwd (world_after_selector (or_default verbose (PyBool false))
                               (or_default quiet (PyBool false)) s))
    (or_default dry_run false) _GLOBAL_VARS
    (world_after_selector (or_default verbose (PyBool false))
                          (or_default quiet (PyBool false)) s)
  = (Raise e, w1) ->
  CliCommands.clean _GLOBAL_VARS DefaultContextFactory Cleaner_run
    dry_run verbose quiet s
  = (Raise e,
     mkState w1
       (calls s ++ [ContextFactoryCall (cwd (world s)) (or_default dry_run false)
                                       _GLOBAL_VARS])%list).
Proof. intros K Hctx. now rewrite clean_by_cases, Hctx. Qed.

(** X10.  When the selector has installed its handler, the context is built
    and the cleaner raises, the exception leaves [clean] and no count is
    reported: the world is the one the cleaner left. *)
Theorem clean_cleaner_raises
    (dry_run : arg bool) (verbose quiet : arg pyint) s
    (context : RunContext) (e : exn) (w1 w2 : World FS) :
  logger.level_known "FATAL" (world s) = true ->
  DefaultContextFactory
    (cwd (world_after_selector (or_default verbose (PyBool false))
                               (or_default quiet (PyBool false)) s))
    (or_default dry_run false) _GLOBAL_VARS
    (world_after_selector (or_default verbose (PyBool false))
                          (or_default quiet (PyBool false)) s)
  = (Ret context, w1) ->
  Cleaner_run context w1 = (Raise e, w2) ->
  CliCommands.clean _GLOBAL_VARS DefaultContextFactory Cleaner_run
    dry_run verbose quiet s
  = (Raise e,
     mkState w2
       (calls s ++ [ContextFactoryCall (cwd (world s)) (or_default dry_run false)
                                       _GLOBAL_VARS;
                    CleanerRunCall context])%list).
Proof. intros K Hctx Hrun. now rewrite clean_by_cases, Hctx, Hrun. Qed.

(** X11.  When the selector has installed its handler and both
    collaborators return, [clean] completes normally; each collaborator was
    called once, the cleaner with the context the factory built; and the
    final world is the one the cleaner left, file system included, with the
    line "Trashed N paths." appended to standard output, N being the decimal
    length of the sequence the cleaner yielded. *)
Theorem clean_reports_count
    (dry_run : arg bool) (verbose quiet : arg pyint) s
    (context : RunContext) (w1 w2 : World FS) (trashed : list Path) :
  logger.level_known "FATAL" (world s) = true ->
  DefaultContextFactory
    (cwd (world_after_selector (or_default verbose (PyBool false))
                               (or_default quiet (PyBool false)) s))
    (or_default dry_run false) _GLOBAL_VARS
    (world_after_selector (or_default verbose (PyBool false))
                          (or_default quiet (PyBool false)) s)
  = (Ret context, w1) ->
  Cleaner_run context w1 = (Ret trashed, w2) ->
  CliCommands.clean _GLOBAL_VARS DefaultContextFactory Cleaner_run
    dry_run verbose quiet s
  = (Ret tt,
     mkState
       (with_output w2
          (("Trashed " ++ str_of_nat (List.length trashed) ++ " paths.") ++ LF))
       (calls s ++ [ContextFactoryCall (cwd (world s)) (or_default dry_run false)
                                       _GLOBAL_VARS;
                    CleanerRunCall context])%list) /\
  read_count (str_of_nat (List.length trashed)) = Some (List.length trashed).
Proof.
  intros K Hctx Hrun. split.
  - now rewrite clean_by_cases, Hctx, Hrun.
  - apply read_count_str_of_nat.
Qed.

(** X12.  When the selector has installed its handler and the context
    factory raises, the exception leaves [sync] and the message is not
    written. *)
Theorem sync_factory_raises
    (dry_run : arg bool) (verbose quiet : arg pyint) s (e : exn) (w1 : World FS) :
  logger.level_known "FATAL" (world s) = true ->
  DefaultContextFactory
    (cwd (world_after_selector (or_default verbose (PyBool false))
                               (or_default quiet (PyBool false)) s))
    (or_default dry_run false) _GLOBAL_VARS
    (world_after_selector (or_default verbose (PyBool false))
                          (or_default quiet (PyBool false)) s)
  = (Raise e, w1) ->
  CliCommands.sync _GLOBAL_VARS DefaultContextFactory dry_run verbose quiet s
  = (Raise e,
     mkState w1
       (calls s ++ [ContextFactoryCall (cwd (world s)) (or_default dry_run false)
                                       _GLOBAL_VARS])%list).
Proof. intros K Hctx. now rewrite sync_by_cases, Hctx. Qed.

(** X13.  [new] creates nothing itself: when it is past its guard, the
    selector has installed its handler and the context is built, the final
    world is the one the context factory left, file system included, with
    the two lines appended to standard output. *)
Theorem new_adds_only_its_two_lines
    (path : arg (option Path)) (name : arg (option string))
    (license_id : arg string) (dry_run : arg bool) (verbose quiet : arg pyint) s
    (context : RunContext) (w1 : World FS) :
  is_None (or_default path (Some (new_path_default this)))
    && is_None (or_default name (Some "my-project")) = false ->
  logger.level_known "FATAL" (world s) = true ->
  DefaultContextFactory
    (cwd (world_after_selector (or_default verbose (PyBool false))
                               (or_default quiet (PyBool false)) s))
    (or_default dry_run false) _GLOBAL_VARS
    (world_after_selector (or_default verbose (PyBool false))
                          (or_default quiet (PyBool false)) s)
  = (Ret context, w1) ->
  world (snd (CliCommands.new _GLOBAL_VARS DefaultContextFactory this
                path name license_id dry_run verbose quiet s))
  = with_output w1
      (typer.rendered (stdout_isatty w1)
         (("Done! Created a new repository under "
           ++ format_opt (or_default name (Some "my-project"))) ++ LF)
       ++ typer.rendered (stdout_isatty w1)
         ((typer.sgr "32" ++ typer.sgr "1"
           ++ "See https://dmyersturnbull.github.io/tyranno/guide.html"
           ++ typer.sgr "0") ++ LF)).
Proof.
  intros G K Hctx.
  now rewrite (new_past_guard _GLOBAL_VARS DefaultContextFactory this
                 _ _ license_id _ _ _ s G K), Hctx.
Qed.

(** X14.  When the selector has installed its handler and the context is
    built, [sync] completes normally, writes the one line
    "Syncing metadata..." and does nothing else: the context factory is the
    only collaborator called and the world is otherwise the one the factory
    left, file system included. *)
Theorem sync_message_only
    (dry_run : arg bool) (verbose quiet : arg pyint) s
    (context : RunContext) (w1 : World FS) :
  logger.level_known "FATAL" (world s) = true ->
  DefaultContextFactory
    (cwd (world_after_selector (or_default verbose (PyBool false))
                               (or_default quiet (PyBool false)) s))
    (or_default dry_run false) _GLOBAL_VARS
    (world_after_selector (or_default verbose (PyBool false))
                          (or_default quiet (PyBool false)) s)
  = (Ret context, w1) ->
  CliCommands.sync _GLOBAL_VARS DefaultContextFactory dry_run verbose quiet s
  = (Ret tt,
     mkState (with_output w1 ("Syncing metadata..." ++ LF))
       (calls s ++ [ContextFactoryCall (cwd (world s)) (or_default dry_run false)
                                       _GLOBAL_VARS])%list).
Proof. intros K Hctx. now rewrite sync_by_cases, Hctx. Qed.
End FurtherCommands.

(* ===================================================================== *)
(** ** The commands on the small instance *)
(* ===================================================================== *)

(** C3 in a process as it starts: [clean] raises, no collaborator is
    called and standard output stays empty. *)
Lemma C3_witness :
  logger.level_known "FATAL" (world Demo.s0) = false /\
  CliCommands.clean tt Demo.factory Demo.cleaner Omitted Omitted Omitted Demo.s0
  = (Raise ValueError,
     mkState (mkWorld "/home/u/proj" [] logger.builtin_levels "" true ""
                      Demo.files) []).
Proof.
  assert (K : logger.level_known "FATAL" (world Demo.s0) = false) by reflexivity.
  split; [exact K|].
  exact (C3_clean_stops_before_cleaning tt Demo.factory Demo.cleaner
           Omitted Omitted Omitted Demo.s0 K).
Defined.

(** C4 as stated fails on the call without arguments: the defaults are not
    [None], so [new] goes past its guard.  In a process as it starts the
    selector then drops the default handler and raises [ValueError], which
    is not the exit with code 0; in a process where FATAL has been
    registered [new] completes normally after calling the context factory
    and writing its two lines. *)
Lemma C4_counterexample :
  CliCommands.new tt Demo.factory Demo.this
         Omitted Omitted Omitted Omitted Omitted Omitted Demo.s0
    = (Raise ValueError,
     mkState (mkWorld "/home/u/proj" [] logger.builtin_levels "" true ""
                      Demo.files) []) /\
  CliCommands.new tt Demo.factory Demo.this
         Omitted Omitted Omitted Omitted Omitted Omitted Demo.s0
    <> (Raise (typer_Exit 0), Demo.s0) /\
  handlers (world (snd (CliCommands.new tt Demo.factory Demo.this
         Omitted Omitted Omitted Omitted Omitted Omitted Demo.s0)))
    <> handlers (world Demo.s0) /\
  fst (CliCommands.new tt Demo.factory Demo.this
         Omitted Omitted Omitted Omitted Omitted Omitted Demo.s_fatal) = Ret tt /\
  calls (snd (CliCommands.new tt Demo.factory Demo.this
         Omitted Omitted Omitted Omitted Omitted Omitted Demo.s_fatal))
    = [ContextFactoryCall "/home/u/proj" false tt] /\
  lines_of (stdout (world (snd (CliCommands.new tt Demo.factory Demo.this
         Omitted Omitted Omitted Omitted Omitted Omitted Demo.s_fatal))))
    = ["Done! Created a new repository under my-project";
       typer.sgr "32" ++ typer.sgr "1"
    ++ "See https://dmyersturnbull.github.io/tyranno/guide.html"
    ++ typer.sgr "0"].
Proof.
  split; [reflexivity|].
  split; [vm_compute; discriminate|].
  split; [vm_compute; discriminate|].
  repeat split; reflexivity.
Qed.

(** C5 in a process as it starts: [sync] raises, the context factory is
    not called and standard output stays empty. *)
Lemma C5_witness :
  logger.level_known "FATAL" (world Demo.s0) = false /\
  CliCommands.sync tt Demo.factory Omitted Omitted Omitted Demo.s0
  = (Raise ValueError,
     mkState (mkWorld "/home/u/proj" [] logger.builtin_levels "" true ""
                      Demo.files) []).
Proof.
  assert (K : logger.level_known "FATAL" (world Demo.s0) = false) by reflexivity.
  split; [exact K|].
  exact (C5_sync_stops_before_message tt Demo.factory
           Omitted Omitted Omitted Demo.s0 K).
Defined.

(** C7 (amended) on the project name ["demo"], on a terminal, in a process
    where FATAL has been registered. *)
Lemma C7_witness :
  is_None (or_default (@Omitted (option Path)) (Some (new_path_default Demo.this)))
    && is_None (or_default (Given (Some "demo")) (Some "my-project")) = false /\
  logger.level_known "FATAL" (world Demo.s_fatal) = true /\
  Demo.factory
    (cwd (world_after_selector (PyBool false) (PyBool false) Demo.s_fatal))
    false tt
    (world_after_selector (PyBool false) (PyBool false) Demo.s_fatal)
  = (Ret ("/home/u/proj", false),
     (world_after_selector (PyBool false) (PyBool false) Demo.s_fatal)) /\
  stdout (world (snd (CliCommands.new tt Demo.factory Demo.this
       Omitted (Given (Some "demo")) Omitted Omitted Omitted Omitted Demo.s_fatal)))
  = "Done! Created a new repository under demo" ++ LF
    ++ typer.sgr "32" ++ typer.sgr "1"
    ++ "See https://dmyersturnbull.github.io/tyranno/guide.html"
    ++ typer.sgr "0" ++ LF.
Proof.
  assert (H0 : is_None (or_default (@Omitted (option Path)) (Some (new_path_default Demo.this)))
    && is_None (or_default (Given (Some "demo")) (Some "my-project")) = false) by reflexivity.
  assert (K : logger.level_known "FATAL" (world Demo.s_fatal) = true) by reflexivity.
  assert (H1 : Demo.factory
    (cwd (world_after_selector (PyBool false) (PyBool false) Demo.s_fatal))
    false tt
    (world_after_selector (PyBool false) (PyBool false) Demo.s_fatal)
  = (Ret ("/home/u/proj", false),
     (world_after_selector (PyBool false) (PyBool false) Demo.s_fatal))) by reflexivity.
  split; [exact H0|]. split; [exact K|]. split; [exact H1|].
  exact (proj2
    (C7_new_messages tt Demo.factory Demo.this
       Omitted (Given (Some "demo")) Omitted Omitted Omitted Omitted
       Demo.s_fatal _ _ H0 K H1)).
Defined.

(** C7 as stated fails on the project name ["demo"].  In a process where
    FATAL has been registered, of the two lines written the one that names
    the project is unstyled and the one in the success styling does not
    mention it; in a process as it starts [new] raises [ValueError] and
    writes nothing. *)
Lemma C7_counterexample :
  map (styled_text (success_color messenger))
    (lines_of (stdout (world (snd (CliCommands.new tt Demo.factory Demo.this
       Omitted (Given (Some "demo")) Omitted Omitted Omitted Omitted Demo.s_fatal)))))
  = [None; Some "See https://dmyersturnbull.github.io/tyranno/guide.html"] /\
  success_line_naming messenger "demo"
    (stdout (world (snd (CliCommands.new tt Demo.factory Demo.this
       Omitted (Given (Some "demo")) Omitted Omitted Omitted Omitted Demo.s_fatal))))
  = false /\
  fst (CliCommands.new tt Demo.factory Demo.this
       Omitted (Given (Some "demo")) Omitted Omitted Omitted Omitted Demo.s0) = Raise ValueError /\
  stdout (world (snd (CliCommands.new tt Demo.factory Demo.this
       Omitted (Given (Some "demo")) Omitted Omitted Omitted Omitted Demo.s0))) = "".
Proof. repeat split; vm_compute; reflexivity. Qed.

(** C10 in a process as it starts: the guard is false and the context
    factory is not called. *)
Lemma C10_witness :
  logger.level_known "FATAL" (world Demo.s0) = false /\
  fst (CliCommands.new tt Demo.factory Demo.this
         (supplied Omitted) (supplied (Given "proj")) Omitted Omitted Omitted
         Omitted Demo.s0) = Raise ValueError /\
  calls (snd (CliCommands.new tt Demo.factory Demo.this
         (supplied Omitted) (supplied (Given "proj")) Omitted Omitted Omitted
         Omitted Demo.s0)) = [].
Proof.
  assert (K : logger.level_known "FATAL" (world Demo.s0) = false) by reflexivity.
  split; [exact K|].
  rewrite (proj2 (C10_guard_false_factory_unreached tt Demo.factory Demo.this
             Omitted (Given "proj") Omitted Omitted Omitted Omitted Demo.s0 K)).
  split; reflexivity.
Defined.

(* ===================================================================== *)
(** ** The further properties on the small instance *)
(* ===================================================================== *)

(** X6 with [path] alone passed as [None]: the factory is called. *)
Lemma new_skips_factory_iff_both_None_witness :
  logger.level_known "FATAL" (world Demo.s_fatal) = true /\
  calls (snd (CliCommands.new tt Demo.factory Demo.this
         (Given None) Omitted Omitted Omitted Omitted Omitted Demo.s_fatal))
  <> calls Demo.s_fatal.
Proof.
  assert (K : logger.level_known "FATAL" (world Demo.s_fatal) = true) by reflexivity.
  split; [exact K|].
  intros H.
  apply (new_skips_factory_iff_both_None tt Demo.factory Demo.this
           (Given None) Omitted Omitted Omitted Omitted Omitted Demo.s_fatal K)
    in H.
  destruct H as [_ H]. discriminate H.
Defined.

(** X7 on the small instance: the first line reads "... under None". *)
Lemma new_name_None_is_printed_witness :
  logger.level_known "FATAL" (world Demo.s_fatal) = true /\
  Demo.factory
    (cwd (world_after_selector (PyBool false) (PyBool false) Demo.s_fatal))
    false tt
    (world_after_selector (PyBool false) (PyBool false) Demo.s_fatal)
  = (Ret ("/home/u/proj", false),
     (world_after_selector (PyBool false) (PyBool false) Demo.s_fatal)) /\
  stdout (world (snd (CliCommands.new tt Demo.factory Demo.this
     (supplied (Given "/tmp/p")) (Given None) Omitted Omitted Omitted Omitted
     Demo.s_fatal)))
  = "Done! Created a new repository under None" ++ LF
    ++ typer.sgr "32" ++ typer.sgr "1"
    ++ "See https://dmyersturnbull.github.io/tyranno/guide.html"
    ++ typer.sgr "0" ++ LF.
Proof.
  assert (K : logger.level_known "FATAL" (world Demo.s_fatal) = true) by reflexivity.
  assert (H1 : Demo.factory
    (cwd (world_after_selector (PyBool false) (PyBool false) Demo.s_fatal))
    false tt
    (world_after_selector (PyBool false) (PyBool false) Demo.s_fatal)
  = (Ret ("/home/u/proj", false),
     (world_after_selector (PyBool false) (PyBool false) Demo.s_fatal))) by reflexivity.
  split; [exact K|]. split; [exact H1|].
  exact (proj2 (new_name_None_is_printed tt Demo.factory Demo.this
           (Given "/tmp/p") Omitted Omitted Omitted Omitted Demo.s_fatal
           _ _ K H1)).
Defined.

(** X8 on the small instance with a factory that raises. *)
Lemma new_factory_raises_witness :
  is_None (or_default (@Omitted (option Path)) (Some (new_path_default Demo.this)))
    && is_None (or_default (@Omitted (option string)) (Some "my-project")) = false /\
  logger.level_known "FATAL" (world Demo.s_fatal) = true /\
  Demo.failing_factory
    (cwd (world_after_selector (PyBool false) (PyBool false) Demo.s_fatal))
    false tt
    (world_after_selector (PyBool false) (PyBool false) Demo.s_fatal)
  = (Raise (OtherError "FileNotFoundError"),
     (world_after_selector (PyBool false) (PyBool false) Demo.s_fatal)) /\
  fst (CliCommands.new tt Demo.failing_factory Demo.this
         Omitted Omitted Omitted Omitted Omitted Omitted Demo.s_fatal)
  = Raise (OtherError "FileNotFoundError") /\
  stdout (world (snd (CliCommands.new tt Demo.failing_factory Demo.this
         Omitted Omitted Omitted Omitted Omitted Omitted Demo.s_fatal))) = "".
Proof.
  assert (G : is_None (or_default (@Omitted (option Path)) (Some (new_path_default Demo.this)))
    && is_None (or_default (@Omitted (option string)) (Some "my-project")) = false) by reflexivity.
  assert (K : logger.level_known "FATAL" (world Demo.s_fatal) = true) by reflexivity.
  assert (H1 : Demo.failing_factory
    (cwd (world_after_selector (PyBool false) (PyBool false) Demo.s_fatal))
    false tt
    (world_after_selector (PyBool false) (PyBool false) Demo.s_fatal)
  = (Raise (OtherError "FileNotFoundError"),
     (world_after_selector (PyBool false) (PyBool false) Demo.s_fatal))) by reflexivity.
  split; [exact G|]. split; [exact K|]. split; [exact H1|].
  rewrite (new_factory_raises tt Demo.failing_factory Demo.this
             Omitted Omitted Omitted Omitted Omitted Omitted Demo.s_fatal
             _ _ G K H1).
  split; reflexivity.
Defined.

(** X9 on the small instance: the cleaner is not among the calls. *)
Lemma clean_factory_raises_witness :
  logger.level_known "FATAL" (world Demo.s_fatal) = true /\
  Demo.failing_factory
    (cwd (world_after_selector (PyBool false) (PyBool false) Demo.s_fatal))
    false tt
    (world_after_selector (PyBool false) (PyBool false) Demo.s_fatal)
  = (Raise (OtherError "FileNotFoundError"),
     (world_after_selector (PyBool false) (PyBool false) Demo.s_fatal)) /\
  calls (snd (CliCommands.clean tt Demo.failing_factory Demo.cleaner
                Omitted Omitted Omitted Demo.s_fatal))
  = [ContextFactoryCall "/home/u/proj" false tt].
Proof.
  assert (K : logger.level_known "FATAL" (world Demo.s_fatal) = true) by reflexivity.
  assert (H1 : Demo.failing_factory
    (cwd (world_after_selector (PyBool false) (PyBool false) Demo.s_fatal))
    false tt
    (world_after_selector (PyBool false) (PyBool false) Demo.s_fatal)
  = (Raise (OtherError "FileNotFoundError"),
     (world_after_selector (PyBool false) (PyBool false) Demo.s_fatal))) by reflexivity.
  split; [exact K|]. split; [exact H1|].
  rewrite (clean_factory_raises tt Demo.failing_factory Demo.cleaner
             Omitted Omitted Omitted Demo.s_fatal _ _ K H1).
  reflexivity.
Defined.

(** X10 on the small instance with a cleaner that raises. *)
Lemma clean_cleaner_raises_witness :
  logger.level_known "FATAL" (world Demo.s_fatal) = true /\
  Demo.factory
    (cwd (world_after_selector (PyBool false) (PyBool false) Demo.s_fatal))
    false tt
    (world_after_selector (PyBool false) (PyBool false) Demo.s_fatal)
  = (Ret ("/home/u/proj", false),
     (world_after_selector (PyBool false) (PyBool false) Demo.s_fatal)) /\
  Demo.failing_cleaner ("/home/u/proj", false)
    (world_after_selector (PyBool false) (PyBool false) Demo.s_fatal)
  = (Raise (OtherError "PermissionError"),
     (world_after_selector (PyBool false) (PyBool false) Demo.s_fatal)) /\
  fst (CliCommands.clean tt Demo.factory Demo.failing_cleaner
         Omitted Omitted Omitted Demo.s_fatal)
  = Raise (OtherError "PermissionError") /\
  stdout (world (snd (CliCommands.clean tt Demo.factory Demo.failing_cleaner
         Omitted Omitted Omitted Demo.s_fatal))) = "".
Proof.
  assert (K : logger.level_known "FATAL" (world Demo.s_fatal) = true) by reflexivity.
  assert (H1 : Demo.factory
    (cwd (world_after_selector (PyBool false) (PyBool false) Demo.s_fatal))
    false tt
    (world_after_selector (PyBool false) (PyBool false) Demo.s_fatal)
  = (Ret ("/home/u/proj", false),
     (world_after_selector (PyBool false) (PyBool false) Demo.s_fatal))) by reflexivity.
  assert (H2 : Demo.failing_cleaner ("/home/u/proj", false)
    (world_after_selector (PyBool false) (PyBool false) Demo.s_fatal)
  = (Raise (OtherError "PermissionError"),
     (world_after_selector (PyBool false) (PyBool false) Demo.s_fatal))) by reflexivity.
  split; [exact K|]. split; [exact H1|]. split; [exact H2|].
  rewrite (clean_cleaner_raises tt Demo.factory Demo.failing_cleaner
             Omitted Omitted Omitted Demo.s_fatal _ _ _ _ K H1 H2).
  split; reflexivity.
Defined.

(** X11 on three files: the line reads "Trashed 3 paths." and the files are
    gone because the cleaner removed them. *)
Lemma clean_reports_count_witness :
  logger.level_known "FATAL" (world Demo.s_fatal) = true /\
  Demo.factory
    (cwd (world_after_selector (PyBool false) (PyBool false) Demo.s_fatal))
    false tt
    (world_after_selector (PyBool false) (PyBool false) Demo.s_fatal)
  = (Ret ("/home/u/proj", false),
     (world_after_selector (PyBool false) (PyBool false) Demo.s_fatal)) /\
  Demo.cleaner ("/home/u/proj", false)
    (world_after_selector (PyBool false) (PyBool false) Demo.s_fatal)
  = (Ret Demo.files,
     mkWorld "/home/u/proj" [mkHandler Stderr "FATAL"]
             (logger.builtin_levels ++ ["FATAL"])%list "" true "" []) /\
  stdout (world (snd (CliCommands.clean tt Demo.factory Demo.cleaner
                        Omitted Omitted Omitted Demo.s_fatal)))
  = "Trashed 3 paths." ++ LF /\
  fs (world (snd (CliCommands.clean tt Demo.factory Demo.cleaner
                    Omitted Omitted Omitted Demo.s_fatal))) = [].
Proof.
  assert (K : logger.level_known "FATAL" (world Demo.s_fatal) = true) by reflexivity.
  assert (H1 : Demo.factory
    (cwd (world_after_selector (PyBool false) (PyBool false) Demo.s_fatal))
    false tt
    (world_after_selector (PyBool false) (PyBool false) Demo.s_fatal)
  = (Ret ("/home/u/proj", false),
     (world_after_selector (PyBool false) (PyBool false) Demo.s_fatal))) by reflexivity.
  assert (H2 : Demo.cleaner ("/home/u/proj", false)
    (world_after_selector (PyBool false) (PyBool false) Demo.s_fatal)
  = (Ret Demo.files,
     mkWorld "/home/u/proj" [mkHandler Stderr "FATAL"]
             (logger.builtin_levels ++ ["FATAL"])%list "" true "" [])) by reflexivity.
  split; [exact K|]. split; [exact H1|]. split; [exact H2|].
  rewrite (proj1 (clean_reports_count tt Demo.factory Demo.cleaner
             Omitted Omitted Omitted Demo.s_fatal _ _ _ _ K H1 H2)).
  split; reflexivity.
Defined.

(** The counts 0 and 1 of X11, run. *)
Example clean_no_file :
  stdout (world (snd (CliCommands.clean tt Demo.factory Demo.cleaner
    Omitted Omitted Omitted
    (mkState (mkWorld "/home/u/proj" [] ["FATAL"] "" false "" []) []))))
  = "Trashed 0 paths." ++ LF.
Proof. reflexivity. Qed.

Example clean_one_file :
  stdout (world (snd (CliCommands.clean tt Demo.factory Demo.cleaner
    (Given true) Omitted Omitted
    (mkState (mkWorld "/home/u/proj" [] ["FATAL"] "" true "" ["x.pyc"]) []))))
  = "Trashed 1 paths." ++ LF.
Proof. reflexivity. Qed.

(** X12 on the small instance with a factory that raises. *)
Lemma sync_factory_raises_witness :
  logger.level_known "FATAL" (world Demo.s_fatal) = true /\
  Demo.failing_factory
    (cwd (world_after_selector (PyBool false) (PyBool false) Demo.s_fatal))
    false tt
    (world_after_selector (PyBool false) (PyBool false) Demo.s_fatal)
  = (Raise (OtherError "FileNotFoundError"),
     (world_after_selector (PyBool false) (PyBool false) Demo.s_fatal)) /\
  fst (CliCommands.sync tt Demo.failing_factory Omitted Omitted Omitted
         Demo.s_fatal)
  = Raise (OtherError "FileNotFoundError") /\
  stdout (world (snd (CliCommands.sync tt Demo.failing_factory
         Omitted Omitted Omitted Demo.s_fatal))) = "".
Proof.
  assert (K : logger.level_known "FATAL" (world Demo.s_fatal) = true) by reflexivity.
  assert (H1 : Demo.failing_factory
    (cwd (world_after_selector (PyBool false) (PyBool false) Demo.s_fatal))
    false tt
    (world_after_selector (PyBool false) (PyBool false) Demo.s_fatal)
  = (Raise (OtherError "FileNotFoundError"),
     (world_after_selector (PyBool false) (PyBool false) Demo.s_fatal))) by reflexivity.
  split; [exact K|]. split; [exact H1|].
  rewrite (sync_factory_raises tt Demo.failing_factory
             Omitted Omitted Omitted Demo.s_fatal _ _ K H1).
  split; reflexivity.
Defined.

(** X13 on the small instance: the three files are still there. *)
Lemma new_adds_only_its_two_lines_witness :
  is_None (or_default (@Omitted (option Path)) (Some (new_path_default Demo.this)))
    && is_None (or_default (@Omitted (option string)) (Some "my-project")) = false /\
  logger.level_known "FATAL" (world Demo.s_fatal) = true /\
  Demo.factory
    (cwd (world_after_selector (PyBool false) (PyBool false) Demo.s_fatal))
    false tt
    (world_after_selector (PyBool false) (PyBool false) Demo.s_fatal)
  = (Ret ("/home/u/proj", false),
     (world_after_selector (PyBool false) (PyBool false) Demo.s_fatal)) /\
  fs (world (snd (CliCommands.new tt Demo.factory Demo.this
         Omitted Omitted Omitted Omitted Omitted Omitted Demo.s_fatal)))
  = Demo.files.
Proof.
  assert (G : is_None (or_default (@Omitted (option Path)) (Some (new_path_default Demo.this)))
    && is_None (or_default (@Omitted (option string)) (Some "my-project")) = false) by reflexivity.
  assert (K : logger.level_known "FATAL" (world Demo.s_fatal) = true) by reflexivity.
  assert (H1 : Demo.factory
    (cwd (world_after_selector (PyBool false) (PyBool false) Demo.s_fatal))
    false tt
    (world_after_selector (PyBool false) (PyBool false) Demo.s_fatal)
  = (Ret ("/home/u/proj", false),
     (world_after_selector (PyBool false) (PyBool false) Demo.s_fatal))) by reflexivity.
  split; [exact G|]. split; [exact K|]. split; [exact H1|].
  rewrite (new_adds_only_its_two_lines tt Demo.factory Demo.this
             Omitted Omitted Omitted Omitted Omitted Omitted Demo.s_fatal
             _ _ G K H1).
  reflexivity.
Defined.

(** X14 on the small instance. *)
Lemma sync_message_only_witness :
  logger.level_known "FATAL" (world Demo.s_fatal) = true /\
  Demo.factory
    (cwd (world_after_selector (PyBool false) (PyBool false) Demo.s_fatal))
    false tt
    (world_after_selector (PyBool false) (PyBool false) Demo.s_fatal)
  = (Ret ("/home/u/proj", false),
     (world_after_selector (PyBool false) (PyBool false) Demo.s_fatal)) /\
  stdout (world (snd (CliCommands.sync tt Demo.factory Omitted Omitted Omitted
                        Demo.s_fatal)))
  = "Syncing metadata..." ++ LF.
Proof.
  assert (K : logger.level_known "FATAL" (world Demo.s_fatal) = true) by reflexivity.
  assert (H1 : Demo.factory
    (cwd (world_after_selector (PyBool false) (PyBool false) Demo.s_fatal))
    false tt
    (world_after_selector (PyBool false) (PyBool false) Demo.s_fatal)
  = (Ret ("/home/u/proj", false),
     (world_after_selector (PyBool false) (PyBool false) Demo.s_fatal))) by reflexivity.
  split; [exact K|]. split; [exact H1|].
  rewrite (sync_message_only tt Demo.factory
             Omitted Omitted Omitted Demo.s_fatal _ _ K H1).
  reflexivity.
Defined.
